(** * AgenteNF: the data-preparation step of [app.py]

    A shallow embedding of [carregar_e_preparar_dados] (app.py, lines 8-49)
    and of the statement that calls it (line 106).

    The function is glue around three pandas calls and one Streamlit call.
    What the file fixes about them:
    - [pd.read_csv] and the per-value date parser behind [pd.to_datetime]
      are parameters (class [Pandas]): every theorem holds for every text
      parser and every date parser;
    - [pd.to_datetime] is called with its default [errors='raise'], so it
      is the strict lifting of the per-value parser to a column;
    - [pd.merge(..., how='left')] is the relational left outer join, written
      out; the pairs pandas refuses to join (key columns of incompatible
      dtype, for instance) are a parameter;
    - [st.error] and the reads of the two uploads are recorded in a trace. *)

From Stdlib Require Import List String Ascii Bool ZArith Arith Lia.
Import ListNotations.
Local Open Scope string_scope.
Local Open Scope list_scope.

(** ** Data model *)

(** A value held by a frame.  [NaN] is pandas' missing value, [NaT] the
    missing timestamp, [Data ns] a [datetime64[ns]] value counted in
    nanoseconds since the epoch.  The function never looks inside a
    numeric payload. *)
Inductive Cell : Type :=
  | NaN
  | NaT
  | Txt (s : string)
  | Num (z : Z)
  | Data (ns : Z).

(** Key comparison of the join; pandas matches a missing key with a missing
    key. *)
Definition Cell_eqb (a b : Cell) : bool :=
  match a, b with
  | NaN, NaN => true
  | NaT, NaT => true
  | Txt s, Txt t => String.eqb s t
  | Num x, Num y => Z.eqb x y
  | Data x, Data y => Z.eqb x y
  | _, _ => false
  end.

Definition eh_data (c : Cell) : bool :=
  match c with
  | Data _ | NaT => true
  | _ => false
  end.

(** A frame: the column labels in order, and the rows in order, each row
    holding one cell per column. *)
Record DataFrame : Type := mkDF {
  columns : list string;
  rows : list (list Cell)
}.

Definition retangular (df : DataFrame) : bool :=
  forallb (fun r => Nat.eqb (List.length r) (List.length (columns df))) (rows df).

(** [str(e)] of a Python exception. *)
Definition Excecao : Type := string.

(** [col in df.columns] *)
Definition pertence (col : string) (cols : list string) : bool :=
  existsb (String.eqb col) cols.

(** Position of the first column labelled [c]. *)
Fixpoint indice (c : string) (cols : list string) : option nat :=
  match cols with
  | [] => None
  | x :: resto =>
      if String.eqb c x then Some 0 else option_map S (indice c resto)
  end.

Fixpoint remove_pos {A : Type} (n : nat) (l : list A) : list A :=
  match l, n with
  | [], _ => []
  | _ :: r, O => r
  | x :: r, S m => x :: remove_pos m r
  end.

Fixpoint substitui {A : Type} (n : nat) (v : A) (l : list A) : list A :=
  match l, n with
  | [], _ => []
  | _ :: r, O => v :: r
  | x :: r, S m => x :: substitui m v r
  end.

(** [df[c]]: the series of column [c]; [None] is Python's [KeyError]. *)
Definition coluna (df : DataFrame) (c : string) : option (list Cell) :=
  match indice c (columns df) with
  | Some i => Some (map (fun r => nth i r NaN) (rows df))
  | None => None
  end.

(** [df[c] = s]: overwrite column [c] in place, or append it when the frame
    has no such column. *)
Definition atribui (df : DataFrame) (c : string) (s : list Cell) : DataFrame :=
  match indice c (columns df) with
  | Some i =>
      mkDF (columns df)
           (map (fun rv => substitui i (snd rv) (fst rv)) (combine (rows df) s))
  | None =>
      mkDF (columns df ++ [c])
           (map (fun rv => fst rv ++ [snd rv]) (combine (rows df) s))
  end.

(** The cell of [linha] under the column labelled [c]. *)
Definition valor (df : DataFrame) (linha : list Cell) (c : string) : option Cell :=
  match indice c (columns df) with
  | Some i => nth_error linha i
  | None => None
  end.

(** [agulha in palheiro] on strings. *)
Fixpoint subcadeia (agulha palheiro : string) : bool :=
  if String.prefix agulha palheiro then true
  else match palheiro with
       | EmptyString => false
       | String _ resto => subcadeia agulha resto
       end.

(** ** pandas *)

(** The parts of pandas the function relies on and this file leaves open. *)
Class Pandas : Type := {
  (** what [pd.read_csv] is given: an uploaded file *)
  Fonte : Type;
  (** the text parser, under a field separator and a decimal separator *)
  analisa_csv : Fonte -> ascii -> ascii -> Excecao + DataFrame;
  (** the date parser for one value of a column (the column is its context:
      pandas infers one format per column); [inr None] is a missing date *)
  analisa_data : list Cell -> Cell -> Excecao + option Z;
  (** the pairs [pd.merge] refuses, with the exception it raises *)
  recusa_merge : DataFrame -> DataFrame -> string -> option Excecao
}.

Module pd.
Section ComPandas.
Context {P : Pandas}.

  (** [pd.read_csv(f, sep=.., decimal=..)].  A frame is rectangular by
      construction; a parse that is not is the parser's error. *)
Definition read_csv (f : Fonte) (sep decimal : ascii) : Excecao + DataFrame :=
    match analisa_csv f sep decimal with
    | inl e => inl e
    | inr df =>
        if retangular df then inr df
        else inl "Error tokenizing data"%string
    end.

Definition carimbo (o : option Z) : Cell :=
    match o with
    | Some ns => Data ns
    | None => NaT
    end.

Fixpoint converte_todas (ctx s : list Cell) : Excecao + list Cell :=
    match s with
    | [] => inr []
    | v :: resto =>
        match analisa_data ctx v with
        | inl e => inl e
        | inr t =>
            match converte_todas ctx resto with
            | inl e => inl e
            | inr resto' => inr (carimbo t :: resto')
            end
        end
    end.

  (** [pd.to_datetime(s)], with the default [errors='raise']: the first
      value that does not parse raises. *)
Definition to_datetime (s : list Cell) : Excecao + list Cell :=
    converte_todas s s.

  (** Labels of the joined frame: a non-key label carried by both sides
      gets the suffix [_x] on the left and [_y] on the right. *)
Definition rotulos_esq (esq dir : list string) (on : string) : list string :=
    map (fun c => if negb (String.eqb c on) && pertence c dir
                  then String.append c "_x" else c) esq.

Definition rotulos_dir (esq dir : list string) (j : nat) : list string :=
    map (fun c => if pertence c esq then String.append c "_y" else c)
        (remove_pos j dir).

  (** The rows [l] of the left frame contributes: one per matching right
      row, or [l] padded with missing values when nothing matches.  Cells
      are carried as values: [NaN] in the padding stands for the missing
      value of the column, which pandas writes [NaT] under a datetime
      column, and the change of dtype pandas makes to a numeric or boolean
      right column once a row goes unmatched is not represented.  What is
      stated of right-hand cells is whether they are missing, text or
      dates, not their numeric payload. *)
Definition casa (i j : nat) (l r : list Cell) : bool :=
    Cell_eqb (nth i l NaN) (nth j r NaN).

Definition linhas_de (dir : DataFrame) (i j : nat) (l : list Cell)
    : list (list Cell) :=
    match filter (casa i j l) (rows dir) with
    | [] => [l ++ repeat NaN (List.length (columns dir) - 1)]
    | m :: ms => map (fun r => l ++ remove_pos j r) (m :: ms)
    end.

Definition left_join (esq dir : DataFrame) (i j : nat) : list (list Cell) :=
    flat_map (linhas_de dir i j) (rows esq).

  (** [pd.merge(esq, dir, on=on, how='left')] *)
Definition merge (esq dir : DataFrame) (on : string) : Excecao + DataFrame :=
    match recusa_merge esq dir on with
    | Some e => inl e
    | None =>
        match indice on (columns esq), indice on (columns dir) with
        | Some i, Some j =>
            inr (mkDF (rotulos_esq (columns esq) (columns dir) on
                         ++ rotulos_dir (columns esq) (columns dir) j)
                      (left_join esq dir i j))
        | _, _ => inl on
        end
    end.

End ComPandas.
End pd.

(** ** Effects *)

(** What the function does to the world besides computing: it reads an
    upload through [pd.read_csv], and it shows a message with [st.error]. *)
Inductive Evento {P : Pandas} : Type :=
  | Leitura (f : Fonte) (sep decimal : ascii)
  | StError (msg : string).

Definition eh_leitura {P : Pandas} (e : Evento) : bool :=
  match e with
  | Leitura _ _ _ => true
  | StError _ => false
  end.

(** A computation: from the trace so far to a result, or the exception
    raised, and the trace extended (oldest event first). *)
Definition M {P : Pandas} (A : Type) : Type :=
  list Evento -> (Excecao + A) * list Evento.

Section Monada.
Context {P : Pandas}.

Definition ret {A : Type} (a : A) : M A := fun w => (inr a, w).

Definition bind {A B : Type} (m : M A) (k : A -> M B) : M B :=
    fun w =>
      match m w with
      | (inl e, w') => (inl e, w')
      | (inr a, w') => k a w'
      end.

Definition eleva {A : Type} (r : Excecao + A) : M A := fun w => (r, w).

Definition emite (e : Evento) : M unit := fun w => (inr tt, w ++ [e]).

  (** [try: m  except Exception as e: h e] *)
Definition try_except {A : Type} (m : M A) (h : Excecao -> M A) : M A :=
    fun w =>
      match m w with
      | (inl e, w') => h e w'
      | (inr a, w') => (inr a, w')
      end.
End Monada.

Notation "x <- c1 ;; c2" := (bind c1 (fun x => c2))
  (at level 61, c1 at next level, right associativity).
Notation "c1 ;; c2" := (bind c1 (fun _ => c2))
  (at level 61, right associativity).

Module st.
  (** [st.error(msg)] *)
Definition error {P : Pandas} (msg : string) : M unit := emite (StError msg).
End st.

(** ** The function *)

(** What the function hands back: [return None] or [return a, b]. *)
Inductive Retorno : Type :=
  | RetNone
  | RetTupla (a : option DataFrame) (b : option string).

(** The spec's names for the two failure exits. *)
Inductive Falha : Type :=
  | LoadError
  | NoJoinKeyError.

Definition falha_de (r : Retorno) : option Falha :=
  match r with
  | RetNone => Some NoJoinKeyError
  | RetTupla None None => Some LoadError
  | RetTupla _ _ => None
  end.

Definition tabela_de (r : Retorno) : option DataFrame :=
  match r with
  | RetNone => None
  | RetTupla a _ => a
  end.

(** line 24 *)
Definition colunas_candidatas : list string := ["NÚMERO"%string].

(** lines 26-29: the loop leaves [coluna_chave] at [None], or breaks at the
    first candidate that labels a column of both frames. *)
Fixpoint procura_chave (candidatas : list string) (df_cabecalho df_itens : DataFrame)
  : option string :=
  match candidatas with
  | [] => None
  | col :: resto =>
      if pertence col (columns df_cabecalho) && pertence col (columns df_itens)
      then Some col
      else procura_chave resto df_cabecalho df_itens
  end.

(** line 32 *)
Definition msg_sem_chave : string :=
  "Erro: Não foi possível encontrar uma coluna em comum para unir os arquivos. Verifique se ambos possuem uma coluna como 'ChaveNF' ou 'ID_NF'.".

(** line 48 *)
Definition msg_excecao (e : Excecao) : string :=
  String.append "Ocorreu um erro ao carregar ou processar os arquivos: " e.

(** The separators of lines 15-16. *)
Definition sep_campos : ascii := ","%char.
Definition sep_decimal : ascii := "."%char.

Section Funcao.
Context {P : Pandas}.

Definition le_csv (f : Fonte) : M DataFrame :=
    emite (Leitura f sep_campos sep_decimal) ;;
    eleva (pd.read_csv f sep_campos sep_decimal).

  (** lines 37-38 and 39-40, for the column labelled [c] *)
Definition converte_data (c : string) (df : DataFrame) : Excecao + DataFrame :=
    if pertence c (columns df) then
      match coluna df c with
      | None => inl c
      | Some s =>
          match pd.to_datetime s with
          | inl e => inl e
          | inr s' => inr (atribui df c s')
          end
      end
    else inr df.

Definition normaliza (df_cabecalho : DataFrame) : Excecao + DataFrame :=
    match converte_data "DataEmissao" df_cabecalho with
    | inl e => inl e
    | inr df => converte_data "DataEntrada" df
    end.

  (** lines 31-33 *)
Definition sem_chave : M Retorno :=
    st.error msg_sem_chave ;; ret RetNone.

  (** lines 15-45, the body of the [try] *)
Definition corpo (arquivo_cabecalho arquivo_itens : Fonte) : M Retorno :=
    df_cabecalho <- le_csv arquivo_cabecalho ;;
    df_itens <- le_csv arquivo_itens ;;
    match procura_chave colunas_candidatas df_cabecalho df_itens with
    | None => sem_chave
    | Some coluna_chave =>
        (* [if not coluna_chave]: the empty string is falsy as well *)
        if String.eqb coluna_chave "" then sem_chave
        else
          df_cabecalho <- eleva (normaliza df_cabecalho) ;;
          df_completo <- eleva (pd.merge df_itens df_cabecalho coluna_chave) ;;
          ret (RetTupla (Some df_completo) (Some coluna_chave))
    end.

  (** lines 8-49 *)
Definition carregar_e_preparar_dados (arquivo_cabecalho arquivo_itens : Fonte)
    : M Retorno :=
    try_except (corpo arquivo_cabecalho arquivo_itens)
      (fun e => st.error (msg_excecao e) ;; ret (RetTupla None None)).

  (** [a, b = r] *)
Definition desempacota (r : Retorno)
    : Excecao + (option DataFrame * option string) :=
    match r with
    | RetTupla a b => inr (a, b)
    | RetNone => inl "cannot unpack non-iterable NoneType object"%string
    end.

  (** line 106 *)
Definition linha_106 (uploaded_cabecalho uploaded_itens : Fonte)
    : M (option DataFrame * option string) :=
    r <- carregar_e_preparar_dados uploaded_cabecalho uploaded_itens ;;
    eleva (desempacota r).

  (** The spec's reading of step 2: [k] is the first name of the list that
      labels a column of both frames. *)
Definition primeira_comum (candidatas : list string) (cab itens : DataFrame)
      (k : string) : Prop :=
    exists antes depois,
      candidatas = antes ++ k :: depois
      /\ In k (columns cab) /\ In k (columns itens)
      /\ forall c, In c antes -> ~ (In c (columns cab) /\ In c (columns itens)).

  (** The event of reading upload [f] the way lines 15-16 do. *)
Definition leu (f : Fonte) : Evento := Leitura f sep_campos sep_decimal.

  (** A read made under the separators [sep] and [dec]. *)
Definition le_com (sep dec : ascii) (e : Evento) : Prop :=
    match e with
    | Leitura _ s d => s = sep /\ d = dec
    | StError _ => True
    end.
End Funcao.

(** The cell of [linha] under column [k], missing when there is none. *)
Definition chave (df : DataFrame) (k : string) (linha : list Cell) : Cell :=
  match indice k (columns df) with
  | Some i => nth i linha NaN
  | None => NaN
  end.

(** The header rows that carry the key of the item row [l]. *)
Definition casam (cab itens : DataFrame) (k : string) (l : list Cell)
  : list (list Cell) :=
  filter (fun r => Cell_eqb (chave itens k l) (chave cab k r)) (rows cab).

(** The recognized date columns of lines 37-40. *)
Definition colunas_de_data : list string :=
  ["DataEmissao"%string; "DataEntrada"%string].

(** ** The agent and the page *)

(** The script below the two functions (lines 96-156) is run again, top to
    bottom, at every interaction, on the session the earlier runs left.
    Lines 83-94 draw the fixed part of the page and read the three widgets
    of the side bar; their values, with the value of the chat input of line
    125, are the input of a run.  An agent executor is an object, hence
    truthy in the test of line 132. *)

(** The parts of LangChain the script relies on and this file leaves open. *)
Class LangChain : Type := {
  (** an agent executor *)
  Agente : Type;
  (** lines 58-75: the model is built from the key and the agent from the
      model and the frame; either step may raise *)
  monta_agente : DataFrame -> string -> Excecao + Agente;
  (** lines 146-147: [agent.invoke({"input": q})['output']]; the call or the
      lookup may raise *)
  invoke : Agente -> string -> Excecao + string
}.

(** What ends up on the page. *)
Inductive Elemento : Type :=
  | Markdown (texto : string)
  | Error (texto : string)
  | Success (texto : string)
  | Warning (texto : string)
  | Dataframe (df : DataFrame).

(** What a run of the script does: what the loading function did, an element
    drawn on the page (inside [st.chat_message(papel)] when [onde] is
    [Some papel]), a question put to the agent.  A spinner leaves nothing
    behind and is not recorded. *)
Inductive Saida {P : Pandas} {L : LangChain} : Type :=
  | DaCarga (e : Evento)
  | Tela (onde : option string) (el : Elemento)
  | Pergunta (ag : Agente) (entrada : string).

(** An entry of [st.session_state.messages]. *)
Record Mensagem : Type := mkMsg {
  role : string;
  content : string
}.

(** [st.session_state]: each of the two keys is absent ([None]) or holds a
    value; the agent slot may hold Python's [None]. *)
Record Sessao {L : LangChain} : Type := mkSessao {
  agent_executor : option (option Agente);
  messages : option (list Mensagem)
}.
Arguments mkSessao {L} _ _.

(** The values of the widgets in one run: lines 90, 93, 94 and 125. *)
Record Entrada {P : Pandas} : Type := mkEntrada {
  gemini_api_key : string;
  uploaded_cabecalho : option Fonte;
  uploaded_itens : option Fonte;
  prompt : option string
}.
Arguments mkEntrada {P} _ _ _ _.

(** The state a run works on: the session, which outlives the run, and what
    the run has done so far. *)
Record Estado {P : Pandas} {L : LangChain} : Type := mkEstado {
  sessao : Sessao;
  feito : list Saida
}.
Arguments mkEstado {P L} _ _.

Definition Exec {P : Pandas} {L : LangChain} (A : Type) : Type :=
  Estado -> (Excecao + A) * Estado.

(** [df.head()] *)
Definition head (df : DataFrame) : DataFrame :=
  mkDF (columns df) (firstn 5 (rows df)).

(** The text an f-string puts for a value that is a string or [None]. *)
Definition formata (o : option string) : string :=
  match o with
  | Some s => s
  | None => "None"%string
  end.

(** line 78 *)
Definition msg_falha_agente (e : Excecao) : string :=
  String.append "Falha ao criar o agente. Verifique sua chave de API. Erro: " e.

(** line 112 *)
Definition msg_sucesso (chave : option string) : string :=
  String.append "Agente inicializado com sucesso! Dados unidos pela coluna '"
    (String.append (formata chave) "'.").

(** lines 137-145 *)
Definition prompt_antes : string :=
  "
                    Contexto: Você está analisando um conjunto de dados de notas fiscais.
                    O DataFrame contém informações tanto do cabeçalho da nota (fornecedor, data, valor total da nota)
                    quanto dos itens da nota (produto, quantidade, valor unitário).

                    Pergunta do usuário: ".

Definition prompt_depois : string :=
  "

                    Responda em português.
                    ".

Definition prompt_completo (prompt : string) : string :=
  String.append prompt_antes (String.append prompt prompt_depois).

(** line 152 *)
Definition msg_erro_pergunta (e : Excecao) : string :=
  String.append "Ocorreu um erro ao executar a sua pergunta: " e.

(** line 156 *)
Definition msg_aviso : string :=
  "Por favor, insira sua chave de API e carregue os arquivos na barra lateral para começar.".

Section MonadaDaPagina.
Context {P : Pandas} {L : LangChain}.

Definition ret_s {A : Type} (a : A) : Exec A := fun s => (inr a, s).

Definition bind_s {A B : Type} (m : Exec A) (k : A -> Exec B) : Exec B :=
  fun s =>
    match m s with
    | (inl e, s') => (inl e, s')
    | (inr a, s') => k a s'
    end.

Definition eleva_s {A : Type} (r : Excecao + A) : Exec A := fun s => (r, s).

(** [try: m  except Exception as e: h e] *)
Definition try_s {A : Type} (m : Exec A) (h : Excecao -> Exec A) : Exec A :=
  fun s =>
    match m s with
    | (inl e, s') => h e s'
    | (inr a, s') => (inr a, s')
    end.

Definition faz (o : Saida) : Exec unit :=
  fun s => (inr tt, mkEstado (sessao s) (feito s ++ [o])).

Definition le_sessao : Exec Sessao := fun s => (inr (sessao s), s).

Definition grava_sessao (x : Sessao) : Exec unit :=
  fun s => (inr tt, mkEstado x (feito s)).

(** A call of the loading code from the script: what it did goes into what
    the run did, an exception it lets through is the run's. *)
Definition chama {A : Type} (m : M A) : Exec A :=
  fun s =>
    let (r, evs) := m [] in
    (r, mkEstado (sessao s) (feito s ++ map DaCarga evs)).

End MonadaDaPagina.

Notation "x <~ c1 ;; c2" := (bind_s c1 (fun x => c2))
  (at level 61, c1 at next level, right associativity).
Notation "c1 ;;; c2" := (bind_s c1 (fun _ => c2))
  (at level 61, right associativity).

Section Pagina.
Context {P : Pandas} {L : LangChain}.

(** [st.session_state.agent_executor], read *)
Definition le_agente : Exec (option Agente) :=
  x <~ le_sessao ;;
  match agent_executor x with
  | Some ag => ret_s ag
  | None => eleva_s (inl "st.session_state has no attribute agent_executor"%string)
  end.

(** [st.session_state.agent_executor = ag] *)
Definition grava_agente (ag : option Agente) : Exec unit :=
  x <~ le_sessao ;;
  grava_sessao (mkSessao (Some ag) (messages x)).

(** [st.session_state.messages], read *)
Definition le_mensagens : Exec (list Mensagem) :=
  x <~ le_sessao ;;
  match messages x with
  | Some ms => ret_s ms
  | None => eleva_s (inl "st.session_state has no attribute messages"%string)
  end.

(** [st.session_state.messages.append(m)] *)
Definition acrescenta (m : Mensagem) : Exec unit :=
  ms <~ le_mensagens ;;
  x <~ le_sessao ;;
  grava_sessao (mkSessao (agent_executor x) (Some (ms ++ [m]))).

(** lines 52-79 *)
Definition criar_agente (df : DataFrame) (api_key : string)
  : Exec (option Agente) :=
  try_s (agent <~ eleva_s (monta_agente df api_key) ;;
         ret_s (Some agent))
        (fun e =>
           faz (Tela None (Error (msg_falha_agente e))) ;;;
           ret_s None).

(** lines 99-100 *)
Definition inicia_agente : Exec unit :=
  x <~ le_sessao ;;
  match agent_executor x with
  | None => grava_sessao (mkSessao (Some None) (messages x))
  | Some _ => ret_s tt
  end.

(** lines 108-113 *)
Definition apresenta (df_completo : option DataFrame) (chave : option string)
    (api_key : string) : Exec unit :=
  match df_completo with
  | None => ret_s tt
  | Some df =>
      atual <~ le_agente ;;
      match atual with
      | Some _ => ret_s tt
      | None =>
          novo <~ criar_agente df api_key ;;
          grava_agente novo ;;;
          faz (Tela None (Success (msg_sucesso chave))) ;;;
          faz (Tela None (Dataframe (head df)))
      end
  end.

(** lines 103-113 *)
Definition processa (e : Entrada) : Exec unit :=
  match negb (String.eqb (gemini_api_key e) ""),
        uploaded_cabecalho e, uploaded_itens e with
  | true, Some cabecalho, Some itens =>
      par <~ chama (linha_106 cabecalho itens) ;;
      apresenta (fst par) (snd par) (gemini_api_key e)
  | _, _, _ => ret_s tt
  end.

(** lines 116-117 *)
Definition inicia_historico : Exec unit :=
  x <~ le_sessao ;;
  match messages x with
  | None => grava_sessao (mkSessao (agent_executor x) (Some []))
  | Some _ => ret_s tt
  end.

(** lines 120-122 *)
Fixpoint mostra (ms : list Mensagem) : Exec unit :=
  match ms with
  | [] => ret_s tt
  | m :: resto =>
      faz (Tela (Some (role m)) (Markdown (content m))) ;;;
      mostra resto
  end.

Definition exibe_historico : Exec unit :=
  ms <~ le_mensagens ;;
  mostra ms.

(** lines 135-154 *)
Definition responde (ag : Agente) (p : string) : Exec unit :=
  try_s (faz (Pergunta ag (prompt_completo p)) ;;;
         answer <~ eleva_s (invoke ag (prompt_completo p)) ;;
         faz (Tela (Some "assistant"%string) (Markdown answer)) ;;;
         acrescenta (mkMsg "assistant" answer))
        (fun e =>
           let error_message := msg_erro_pergunta e in
           faz (Tela (Some "assistant"%string) (Error error_message)) ;;;
           acrescenta (mkMsg "assistant" error_message)).

(** lines 125-156 *)
Definition interacao (e : Entrada) : Exec unit :=
  match prompt e with
  | None => ret_s tt
  | Some p =>
      if String.eqb p "" then ret_s tt
      else
        acrescenta (mkMsg "user" p) ;;;
        faz (Tela (Some "user"%string) (Markdown p)) ;;;
        atual <~ le_agente ;;
        match atual with
        | Some ag => responde ag p
        | None => faz (Tela None (Warning msg_aviso))
        end
  end.

(** lines 96-156, one run of the script *)
Definition script (e : Entrada) : Exec unit :=
  inicia_agente ;;;
  processa e ;;;
  inicia_historico ;;;
  exibe_historico ;;;
  interacao e.

(** One run from a session, on a fresh page; the session it leaves is kept
    even when the run stops on an exception. *)
Definition executa_script (e : Entrada) (x : Sessao) : (Excecao + unit) * Estado :=
  script e (mkEstado x []).

Definition sessao_apos (x : Sessao) (e : Entrada) : Sessao :=
  sessao (snd (executa_script e x)).

(** The session after a sequence of runs. *)
Definition sessao_apos_todas (es : list Entrada) (x : Sessao) : Sessao :=
  fold_left sessao_apos es x.

(** The stored history, empty while the key is absent. *)
Definition historico (x : Sessao) : list Mensagem :=
  match messages x with
  | Some h => h
  | None => []
  end.

(** The agent the session holds, if any. *)
Definition agente_de (x : Sessao) : option Agente :=
  match agent_executor x with
  | Some ag => ag
  | None => None
  end.

(** The session once lines 99-100 and 116-117 have run. *)
Definition iniciada (x : Sessao) : Sessao :=
  mkSessao (Some (agente_de x)) (Some (historico x)).

(** A stored message as it is drawn by lines 120-122. *)
Definition exibida (m : Mensagem) : Saida :=
  Tela (Some (role m)) (Markdown (content m)).

(** The test of line 103. *)
Definition portao (e : Entrada) : bool :=
  negb (String.eqb (gemini_api_key e) "")
  && match uploaded_cabecalho e with Some _ => true | None => false end
  && match uploaded_itens e with Some _ => true | None => false end.

(** The test of line 125. *)
Definition perguntou (e : Entrada) : option string :=
  match prompt e with
  | Some p => if String.eqb p "" then None else Some p
  | None => None
  end.

(** Output of the conversation: a chat message, the warning of line 156,
    a question to the agent. *)
Definition da_conversa (o : Saida) : bool :=
  match o with
  | Tela (Some _) _ => true
  | Tela None (Warning _) => true
  | Pergunta _ _ => true
  | _ => false
  end.

(** What the assistant's message of lines 149 and 154 holds. *)
Definition resposta (ag : Agente) (p : string) : string :=
  match invoke ag (prompt_completo p) with
  | inr answer => answer
  | inl e => msg_erro_pergunta e
  end.

Definition eh_leitura_s (o : Saida) : bool :=
  match o with
  | DaCarga (Leitura _ _ _) => true
  | _ => false
  end.

Definition eh_pergunta (o : Saida) : bool :=
  match o with
  | Pergunta _ _ => true
  | _ => false
  end.

End Pagina.

(** ** A concrete pandas, to run the function on *)

Module Exemplo.

  (** An upload is what it parses to; the only date the parser knows beyond
      values that are dates already is 15 January 2024. *)
#[export] Instance pandas : Pandas := {|
    Fonte := Excecao + DataFrame;
    analisa_csv := fun f _ _ => f;
    analisa_data := fun _ v =>
      match v with
      | NaN | NaT => inr None
      | Data ns => inr (Some ns)
      | Num z => inr (Some z)
      | Txt s =>
          if String.eqb s "2024-01-15" then inr (Some 1705276800000000000%Z)
          else inl (String.append "Unknown datetime string format, unable to parse: " s)
      end;
    recusa_merge := fun _ _ _ => None
  |}.

Definition executa (cab itens : Excecao + DataFrame) :=
    carregar_e_preparar_dados (P := pandas) cab itens [].

  (** The scenario of the spec's section 8, item 6. *)
Definition cab6 : DataFrame :=
    mkDF ["NÚMERO"%string; "Fornecedor"%string; "ValorTotal"%string]
         [[Txt "1"; Txt "ACME"; Txt "100.00"]].

Definition itens6 : DataFrame :=
    mkDF ["NÚMERO"%string; "Produto"%string; "Quantidade"%string]
         [[Txt "1"; Txt "Widget"; Txt "2"];
          [Txt "2"; Txt "Gadget"; Txt "1"]].

Definition completo6 : DataFrame :=
    mkDF ["NÚMERO"%string; "Produto"%string; "Quantidade"%string;
          "Fornecedor"%string; "ValorTotal"%string]
         [[Txt "1"; Txt "Widget"; Txt "2"; Txt "ACME"; Txt "100.00"];
          [Txt "2"; Txt "Gadget"; Txt "1"; NaN; NaN]].

  (** Two headers under one key. *)
Definition cab_duplo : DataFrame :=
    mkDF ["NÚMERO"%string; "Fornecedor"%string]
         [[Txt "1"; Txt "ACME"]; [Txt "1"; Txt "Bolt"]].

Definition itens_um : DataFrame :=
    mkDF ["NÚMERO"%string; "Produto"%string] [[Txt "1"; Txt "Widget"]].

  (** No column in common. *)
Definition cab_a : DataFrame := mkDF ["A"%string] [[Txt "1"]].
Definition itens_b : DataFrame := mkDF ["B"%string] [[Txt "1"]].

  (** A header whose emission date does not parse. *)
Definition cab_data_ruim : DataFrame :=
    mkDF ["NÚMERO"%string; "DataEmissao"%string] [[Txt "1"; Txt "ontem"]].
Definition cab_data_ruim_sem_chave : DataFrame :=
    mkDF ["Nota"%string; "DataEmissao"%string] [[Txt "1"; Txt "ontem"]].
Definition cab_data_boa : DataFrame :=
    mkDF ["NÚMERO"%string; "DataEmissao"%string] [[Txt "1"; Txt "2024-01-15"]].

End Exemplo.

(** ** A concrete agent, to run the script on *)

Module ExemploPagina.

(** An agent is the frame it was built on; one key is refused; a question
    is answered when it speaks of a total. *)
#[export] Instance langchain : LangChain := {|
  Agente := DataFrame;
  monta_agente := fun df k =>
    if String.eqb k "chave-ruim" then inl "API key not valid"%string
    else inr df;
  invoke := fun _ q =>
    if subcadeia "total" q then inr "100.00"%string
    else inl "Could not parse LLM output"%string
|}.

Definition nova : Sessao (L := langchain) := mkSessao None None.

Definition com_agente : Sessao (L := langchain) :=
  mkSessao (Some (Some Exemplo.completo6))
           (Some [mkMsg "user" "oi"; mkMsg "assistant" "olá"]).

Definition entrada (k : string) (cab itens : option (Excecao + DataFrame))
    (p : option string) : Entrada (P := Exemplo.pandas) :=
  @mkEntrada Exemplo.pandas k cab itens p.

Definition roda (e : Entrada (P := Exemplo.pandas)) (x : Sessao (L := langchain)) :=
  executa_script (P := Exemplo.pandas) (L := langchain) e x.

End ExemploPagina.

Example ex_cenario :
  Exemplo.executa (inr Exemplo.cab6) (inr Exemplo.itens6)
  = (inr (RetTupla (Some Exemplo.completo6) (Some "NÚMERO"%string)),
     [@Leitura Exemplo.pandas (inr Exemplo.cab6) "," ".";
      @Leitura Exemplo.pandas (inr Exemplo.itens6) "," "."]).
Proof. vm_compute. reflexivity. Qed.

(** ** The function, case by case *)

Section Casos.
Context {P : Pandas}.

  (** Every path through lines 13-49, with the value returned and the trace
      left behind. *)
Lemma carregar_casos (a b : Fonte) (w : list Evento) :
    carregar_e_preparar_dados a b w =
    match pd.read_csv a sep_campos sep_decimal with
    | inl e => (inr (RetTupla None None), w ++ [leu a; StError (msg_excecao e)])
    | inr cab =>
      match pd.read_csv b sep_campos sep_decimal with
      | inl e =>
          (inr (RetTupla None None), w ++ [leu a; leu b; StError (msg_excecao e)])
      | inr itens =>
        match procura_chave colunas_candidatas cab itens with
        | None => (inr RetNone, w ++ [leu a; leu b; StError msg_sem_chave])
        | Some k =>
          if String.eqb k "" then
            (inr RetNone, w ++ [leu a; leu b; StError msg_sem_chave])
          else
            match normaliza cab with
            | inl e =>
                (inr (RetTupla None None),
                 w ++ [leu a; leu b; StError (msg_excecao e)])
            | inr cab' =>
              match pd.merge itens cab' k with
              | inl e =>
                  (inr (RetTupla None None),
                   w ++ [leu a; leu b; StError (msg_excecao e)])
              | inr df => (inr (RetTupla (Some df) (Some k)), w ++ [leu a; leu b])
              end
            end
        end
      end
    end.
  Proof.
    unfold carregar_e_preparar_dados, try_except, corpo, le_csv, sem_chave,
      st.error, bind, emite, eleva, ret, leu.
    destruct (pd.read_csv a sep_campos sep_decimal) as [e | cab]; cbv beta iota.
    { rewrite <- ?app_assoc; reflexivity. }
    destruct (pd.read_csv b sep_campos sep_decimal) as [e | itens]; cbv beta iota.
    { rewrite <- ?app_assoc; reflexivity. }
    destruct (procura_chave colunas_candidatas cab itens) as [k | ]; cbv beta iota.
    2: { rewrite <- ?app_assoc; reflexivity. }
    destruct (String.eqb k ""); cbv beta iota.
    { rewrite <- ?app_assoc; reflexivity. }
    destruct (normaliza cab) as [e | cab']; cbv beta iota.
    { rewrite <- ?app_assoc; reflexivity. }
    destruct (pd.merge itens cab' k) as [e | df]; cbv beta iota;
      rewrite <- ?app_assoc; reflexivity.
  Qed.

Lemma pertence_In (c : string) (cols : list string) :
    pertence c cols = true <-> In c cols.
  Proof.
    unfold pertence. rewrite existsb_exists. split.
    - intros [x [Hx Heq]]. apply String.eqb_eq in Heq. now subst.
    - intros H. exists c. split; [assumption | apply String.eqb_refl].
  Qed.

Lemma ambas_In (c : string) (cab itens : DataFrame) :
    pertence c (columns cab) && pertence c (columns itens) = true
    <-> In c (columns cab) /\ In c (columns itens).
  Proof. now rewrite andb_true_iff, !pertence_In. Qed.

  (** The loop returns the first candidate common to both frames, whatever
      the list of candidates. *)
Lemma procura_chave_primeira (candidatas : list string) (cab itens : DataFrame)
      (k : string) :
    procura_chave candidatas cab itens = Some k
    <-> primeira_comum candidatas cab itens k.
  Proof.
    unfold primeira_comum.
    induction candidatas as [| col resto IH]; simpl.
    - split; [discriminate |].
      intros (antes & depois & Heq & _). now destruct antes.
    - destruct (pertence col (columns cab) && pertence col (columns itens))
        eqn:Hcol.
      + apply ambas_In in Hcol. split.
        * intros [= <-]. exists [], resto. simpl. intuition.
        * intros (antes & depois & Heq & Hc & Hi & Hantes).
          destruct antes as [| x antes]; simpl in Heq.
          -- now injection Heq as -> _.
          -- injection Heq as -> _. exfalso.
             apply (Hantes x); [now left | assumption].
      + assert (Hn : ~ (In col (columns cab) /\ In col (columns itens))).
        { rewrite <- ambas_In, Hcol. discriminate. }
        rewrite IH. split.
        * intros (antes & depois & -> & Hc & Hi & Hantes).
          exists (col :: antes), depois. simpl. repeat split; try assumption.
          intros c [<- | Hin]; [assumption | now apply Hantes].
        * intros (antes & depois & Heq & Hc & Hi & Hantes).
          destruct antes as [| x antes]; simpl in Heq.
          -- injection Heq as -> _. now elim Hn.
          -- injection Heq as -> ->. exists antes, depois.
             repeat split; try assumption.
             intros c Hin. apply Hantes. now right.
  Qed.

Lemma procura_chave_nenhuma (candidatas : list string) (cab itens : DataFrame) :
    procura_chave candidatas cab itens = None
    <-> forall c, In c candidatas ->
                  ~ (In c (columns cab) /\ In c (columns itens)).
  Proof.
    induction candidatas as [| col resto IH]; simpl.
    - split; [intros _ c [] | reflexivity].
    - destruct (pertence col (columns cab) && pertence col (columns itens))
        eqn:Hcol.
      + apply ambas_In in Hcol. split; [discriminate |].
        intros H. exfalso. apply (H col); [now left | assumption].
      + rewrite IH. split.
        * intros H c [<- | Hin]; [| now apply H].
          rewrite <- ambas_In, Hcol. discriminate.
        * intros H c Hin. apply H. now right.
  Qed.

  (** With the list of line 24 the loop has two outcomes. *)
Lemma procura_chave_atual (cab itens : DataFrame) :
    procura_chave colunas_candidatas cab itens =
    if pertence "NÚMERO" (columns cab) && pertence "NÚMERO" (columns itens)
    then Some "NÚMERO"%string else None.
  Proof. reflexivity. Qed.

Lemma procura_chave_atual_Some (cab itens : DataFrame) (k : string) :
    procura_chave colunas_candidatas cab itens = Some k ->
    k = "NÚMERO"%string /\ In k (columns cab) /\ In k (columns itens).
  Proof.
    rewrite procura_chave_atual.
    destruct (pertence _ (columns cab) && pertence _ (columns itens)) eqn:H;
      [| discriminate].
    intros [= <-]. apply ambas_In in H. intuition.
  Qed.
End Casos.

(** ** Lists and labels *)

Lemma indice_Some (c : string) (cols : list string) (i : nat) :
  indice c cols = Some i -> i < List.length cols /\ nth_error cols i = Some c.
Proof.
  revert i. induction cols as [| x resto IH]; simpl; [discriminate |].
  intros i. destruct (String.eqb c x) eqn:Hcx.
  - intros [= <-]. apply String.eqb_eq in Hcx. subst. simpl. split; [lia | easy].
  - destruct (indice c resto) as [n |]; simpl; [| discriminate].
    intros [= <-]. destruct (IH n eq_refl) as [Hlt Hnth]. simpl.
    split; [lia | assumption].
Qed.

Lemma indice_pertence (c : string) (cols : list string) :
  pertence c cols = true -> exists i, indice c cols = Some i.
Proof.
  unfold pertence. induction cols as [| x resto IH]; simpl; [discriminate |].
  destruct (String.eqb c x); simpl.
  - intros _. now exists 0.
  - intros H. destruct (IH H) as [i ->]. now exists (S i).
Qed.

Lemma indice_inj (c d : string) (cols : list string) (i : nat) :
  indice c cols = Some i -> indice d cols = Some i -> c = d.
Proof.
  intros Hc Hd. apply indice_Some in Hc, Hd.
  destruct Hc as [_ Hc]. destruct Hd as [_ Hd]. congruence.
Qed.

Lemma length_remove_pos {A : Type} (n : nat) (l : list A) :
  n < List.length l -> List.length (remove_pos n l) = List.length l - 1.
Proof.
  revert n. induction l as [| x r IH]; simpl; [lia |].
  intros [| m] H; simpl; [lia |].
  rewrite IH by lia. lia.
Qed.

Lemma length_substitui {A : Type} (n : nat) (v : A) (l : list A) :
  List.length (substitui n v l) = List.length l.
Proof.
  revert n. induction l as [| x r IH]; intros [| m]; simpl; congruence.
Qed.

Lemma nth_substitui_mesma {A : Type} (n : nat) (v d : A) (l : list A) :
  n < List.length l -> nth n (substitui n v l) d = v.
Proof.
  revert n. induction l as [| x r IH]; simpl; [lia |].
  intros [| m] H; simpl; [reflexivity | apply IH; lia].
Qed.

Lemma nth_substitui_outra {A : Type} (n m : nat) (v d : A) (l : list A) :
  n <> m -> nth m (substitui n v l) d = nth m l d.
Proof.
  revert n m. induction l as [| x r IH]; intros [| n] [| m] H; simpl;
    try reflexivity; try congruence.
  apply IH. congruence.
Qed.

Lemma map_fst_combine {A B : Type} (l : list A) (s : list B) :
  List.length l = List.length s -> map fst (combine l s) = l.
Proof.
  revert s. induction l as [| x r IH]; intros [| y s]; simpl; try easy.
  intros [= H]. now rewrite IH.
Qed.

Lemma map_snd_combine {A B : Type} (l : list A) (s : list B) :
  List.length l = List.length s -> map snd (combine l s) = s.
Proof.
  revert s. induction l as [| x r IH]; intros [| y s]; simpl; try easy.
  intros [= H]. now rewrite IH.
Qed.

Lemma length_filter_map {A B : Type} (p : B -> bool) (h : A -> B) (l : list A) :
  List.length (filter (fun x => p (h x)) l) = List.length (filter p (map h l)).
Proof.
  induction l as [| x r IH]; simpl; [reflexivity |].
  destruct (p (h x)); simpl; congruence.
Qed.

Lemma retangular_linha (df : DataFrame) (l : list Cell) :
  retangular df = true -> In l (rows df) ->
  List.length l = List.length (columns df).
Proof.
  unfold retangular. rewrite forallb_forall. intros H Hin.
  apply Nat.eqb_eq. now apply H.
Qed.

(** ** The left join *)

Section Juncao.
Context {P : Pandas}.

Lemma length_linhas_de (dir : DataFrame) (i j : nat) (l : list Cell) :
  List.length (pd.linhas_de dir i j l)
  = Nat.max 1 (List.length (filter (pd.casa i j l) (rows dir))).
Proof.
  unfold pd.linhas_de.
  destruct (filter (pd.casa i j l) (rows dir)) as [| m ms]; [reflexivity |].
  rewrite length_map. simpl. lia.
Qed.

(** Each left row contributes one row, or one row per match. *)
Lemma length_left_join (esq dir : DataFrame) (i j : nat) :
  List.length (pd.left_join esq dir i j)
  = list_sum (map (fun l => Nat.max 1
                     (List.length (filter (pd.casa i j l) (rows dir))))
                  (rows esq)).
Proof.
  unfold pd.left_join.
  induction (rows esq) as [| l r IH]; simpl; [reflexivity |].
  now rewrite length_app, IH, length_linhas_de.
Qed.

Lemma list_sum_uns {A : Type} (f : A -> nat) (l : list A) :
  (forall x, In x l -> f x = 1) -> list_sum (map f l) = List.length l.
Proof.
  induction l as [| x r IH]; simpl; [reflexivity |].
  intros H. rewrite (H x) by now left. rewrite IH; [reflexivity |].
  intros y Hy. apply H. now right.
Qed.

Lemma sem_par_fica (esq dir : DataFrame) (i j : nat) (l : list Cell) :
  In l (rows esq) ->
  filter (pd.casa i j l) (rows dir) = [] ->
  In (l ++ repeat NaN (List.length (columns dir) - 1)) (pd.left_join esq dir i j).
Proof.
  intros Hin Hnone. unfold pd.left_join. apply in_flat_map.
  exists l. split; [assumption |].
  unfold pd.linhas_de. rewrite Hnone. now left.
Qed.

Lemma casa_chave (esq dir : DataFrame) (k : string) (i j : nat) (l r : list Cell) :
  indice k (columns esq) = Some i -> indice k (columns dir) = Some j ->
  pd.casa i j l r = Cell_eqb (chave esq k l) (chave dir k r).
Proof. intros Hi Hj. unfold pd.casa, chave. now rewrite Hi, Hj. Qed.

Lemma filter_casa_casam (esq dir : DataFrame) (k : string) (i j : nat)
    (l : list Cell) :
  indice k (columns esq) = Some i -> indice k (columns dir) = Some j ->
  filter (pd.casa i j l) (rows dir) = casam dir esq k l.
Proof.
  intros Hi Hj. unfold casam. apply filter_ext. intros r.
  now apply casa_chave.
Qed.

(** What a join that went through is made of. *)
Lemma merge_inr (esq dir : DataFrame) (on : string) (df : DataFrame) :
  pd.merge esq dir on = inr df ->
  exists i j,
    indice on (columns esq) = Some i /\ indice on (columns dir) = Some j
    /\ columns df = pd.rotulos_esq (columns esq) (columns dir) on
                    ++ pd.rotulos_dir (columns esq) (columns dir) j
    /\ rows df = pd.left_join esq dir i j.
Proof.
  unfold pd.merge. destruct (recusa_merge esq dir on); [discriminate |].
  destruct (indice on (columns esq)) as [i |]; [| discriminate].
  destruct (indice on (columns dir)) as [j |]; [| discriminate].
  intros [= <-]. exists i, j. simpl. repeat split.
Qed.

End Juncao.

(** ** Date columns *)

Section Datas.
Context {P : Pandas}.

Lemma converte_todas_inr (ctx s s' : list Cell) :
  pd.converte_todas ctx s = inr s' ->
  List.length s' = List.length s /\ forallb eh_data s' = true.
Proof.
  revert s'. induction s as [| v resto IH]; simpl; intros s'.
  - intros [= <-]. now split.
  - destruct (analisa_data ctx v) as [e | t]; [discriminate |].
    destruct (pd.converte_todas ctx resto) as [e | r']; [discriminate |].
    intros [= <-]. destruct (IH r' eq_refl) as [Hlen Hall]. simpl.
    split; [congruence |]. rewrite Hall. now destruct t.
Qed.


Lemma atribui_outra (df : DataFrame) (c : string) (s : list Cell) (i j : nat) :
  indice c (columns df) = Some i ->
  List.length s = List.length (rows df) ->
  j <> i ->
  map (fun r => nth j r NaN) (rows (atribui df c s))
  = map (fun r => nth j r NaN) (rows df).
Proof.
  intros Hi Hlen Hj. unfold atribui. rewrite Hi. simpl.
  rewrite map_map.
  rewrite (map_ext _ (fun rv => nth j (fst rv) NaN)).
  - rewrite <- (map_map fst (fun r => nth j r NaN)).
    now rewrite map_fst_combine.
  - intros rv. apply nth_substitui_outra. congruence.
Qed.

Lemma atribui_mesma (df : DataFrame) (c : string) (s : list Cell) (i : nat) :
  indice c (columns df) = Some i ->
  List.length s = List.length (rows df) ->
  retangular df = true ->
  map (fun r => nth i r NaN) (rows (atribui df c s)) = s.
Proof.
  intros Hi Hlen Hret. unfold atribui. rewrite Hi. simpl.
  rewrite map_map.
  rewrite (map_ext_in _ snd).
  - now rewrite map_snd_combine.
  - intros [r v] Hin. simpl. apply nth_substitui_mesma.
    apply in_combine_l in Hin.
    rewrite (retangular_linha df r Hret Hin).
    now apply indice_Some in Hi.
Qed.

Lemma atribui_retangular (df : DataFrame) (c : string) (s : list Cell) (i : nat) :
  indice c (columns df) = Some i ->
  retangular df = true -> retangular (atribui df c s) = true.
Proof.
  intros Hi Hret. unfold atribui. rewrite Hi. unfold retangular. simpl.
  apply forallb_forall. intros r Hr. apply in_map_iff in Hr.
  destruct Hr as ([r0 v] & <- & Hin). simpl. rewrite length_substitui.
  apply Nat.eqb_eq. apply in_combine_l in Hin.
  now apply retangular_linha.
Qed.

(** Lines 37-38 (or 39-40) when they go through: the labels and the other
    columns are untouched, and column [c], if there, now holds dates. *)
Lemma converte_data_inr (c : string) (df df' : DataFrame) :
  converte_data c df = inr df' ->
  retangular df = true ->
  columns df' = columns df
  /\ retangular df' = true
  /\ (forall j, indice c (columns df) <> Some j ->
        map (fun r => nth j r NaN) (rows df')
        = map (fun r => nth j r NaN) (rows df))
  /\ (forall i, indice c (columns df) = Some i ->
        forallb eh_data (map (fun r => nth i r NaN) (rows df')) = true).
Proof.
  unfold converte_data. intros H Hret.
  destruct (pertence c (columns df)) eqn:Hc.
  - destruct (indice_pertence _ _ Hc) as [i Hi].
    unfold coluna in H. rewrite Hi in H.
    unfold pd.to_datetime in H.
    destruct (pd.converte_todas _ _) as [e | s'] eqn:Hconv; [discriminate |].
    injection H as <-.
    apply converte_todas_inr in Hconv. destruct Hconv as [Hlen Hall].
    rewrite length_map in Hlen.
    repeat split.
    + unfold atribui. now rewrite Hi.
    + now apply (atribui_retangular df c s' i).
    + intros j Hj. apply (atribui_outra df c s' i j); congruence.
    + intros i' Hi'. assert (i' = i) as -> by congruence.
      now rewrite (atribui_mesma df c s' i).
  - injection H as <-. repeat split; try assumption.
    intros i Hi. apply indice_Some in Hi. destruct Hi as [_ Hi].
    apply nth_error_In in Hi. apply pertence_In in Hi. congruence.
Qed.


Lemma indice_distintas (c d : string) (cols : list string) (i : nat) :
  c <> d -> indice d cols = Some i -> indice c cols <> Some i.
Proof. intros Hcd Hd Hc. apply Hcd. now apply (indice_inj c d cols i). Qed.

(** Lines 37-40 when they go through. *)
Lemma normaliza_inr (cab cab' : DataFrame) :
  normaliza cab = inr cab' ->
  retangular cab = true ->
  columns cab' = columns cab
  /\ retangular cab' = true
  /\ (forall k j, ~ In k colunas_de_data -> indice k (columns cab) = Some j ->
        map (fun r => nth j r NaN) (rows cab')
        = map (fun r => nth j r NaN) (rows cab))
  /\ (forall c i, In c colunas_de_data -> indice c (columns cab) = Some i ->
        forallb eh_data (map (fun r => nth i r NaN) (rows cab')) = true).
Proof.
  unfold normaliza. intros H Hret.
  destruct (converte_data "DataEmissao" cab) as [e | df1] eqn:H1;
    [discriminate |].
  destruct (converte_data_inr _ _ _ H1 Hret) as (Hc1 & Hr1 & Ho1 & Hd1).
  destruct (converte_data_inr _ _ _ H Hr1) as (Hc2 & Hr2 & Ho2 & Hd2).
  rewrite Hc1 in *.
  repeat split.
  - congruence.
  - assumption.
  - intros k j Hk Hj.
    assert (k <> "DataEmissao"%string /\ k <> "DataEntrada"%string) as [Ha Hb].
    { simpl in Hk. split; intros ->; apply Hk; tauto. }
    rewrite Ho2, Ho1; [reflexivity | |];
      apply not_eq_sym in Ha, Hb; now apply (indice_distintas _ k).
  - intros c i [<- | [<- | []]] Hi.
    + rewrite Ho2; [now apply Hd1 |].
      apply (indice_distintas _ "DataEmissao"%string); [discriminate | assumption].
    + now apply Hd2.
Qed.


End Datas.

(** ** What a successful call is made of *)

Section Sucesso.
Context {P : Pandas}.

Lemma read_csv_retangular (f : Fonte) (s d : ascii) (df : DataFrame) :
  pd.read_csv f s d = inr df -> retangular df = true.
Proof.
  unfold pd.read_csv. destruct (analisa_csv f s d) as [e | df0]; [discriminate |].
  destruct (retangular df0) eqn:H; [| discriminate]. now intros [= <-].
Qed.

(** The only way to a frame: both reads, a key, the dates, the join. *)
Lemma sucesso_inv (a b : Fonte) (w : list Evento) (cab itens df : DataFrame)
    (k : string) :
  pd.read_csv a sep_campos sep_decimal = inr cab ->
  pd.read_csv b sep_campos sep_decimal = inr itens ->
  fst (carregar_e_preparar_dados a b w) = inr (RetTupla (Some df) (Some k)) ->
  procura_chave colunas_candidatas cab itens = Some k
  /\ exists cab', normaliza cab = inr cab' /\ pd.merge itens cab' k = inr df.
Proof.
  intros Ha Hb. rewrite carregar_casos, Ha, Hb.
  destruct (procura_chave colunas_candidatas cab itens) as [k0 |];
    [| discriminate].
  destruct (String.eqb k0 ""); [discriminate |].
  destruct (normaliza cab) as [e | cab']; [discriminate |].
  destruct (pd.merge itens cab' k0) as [e | df0] eqn:Hm; [discriminate |].
  simpl. intros [= <- <-]. split; [reflexivity |]. now exists cab'.
Qed.

Lemma chave_nao_e_data (cab itens : DataFrame) (k : string) :
  procura_chave colunas_candidatas cab itens = Some k ->
  ~ In k colunas_de_data.
Proof.
  intros H. apply procura_chave_atual_Some in H. destruct H as [-> _].
  simpl. intros [H | [H | []]]; discriminate.
Qed.

(** Normalising the dates does not change which header rows carry a key. *)
Lemma casam_normaliza (cab cab' itens : DataFrame) (k : string) (j : nat)
    (l : list Cell) :
  normaliza cab = inr cab' -> retangular cab = true ->
  ~ In k colunas_de_data -> indice k (columns cab) = Some j ->
  List.length (casam cab' itens k l) = List.length (casam cab itens k l).
Proof.
  intros Hn Hret Hk Hj.
  destruct (normaliza_inr _ _ Hn Hret) as (Hcols & _ & Houtras & _).
  unfold casam, chave. rewrite Hcols, Hj.
  rewrite (length_filter_map (Cell_eqb _) (fun r => nth j r NaN) (rows cab')).
  rewrite (length_filter_map (Cell_eqb _) (fun r => nth j r NaN) (rows cab)).
  now rewrite (Houtras k j Hk Hj).
Qed.

(** The shape of the frame returned, in terms of the two parsed frames. *)
Lemma sucesso_forma (a b : Fonte) (w : list Evento) (cab itens df : DataFrame)
    (k : string) :
  pd.read_csv a sep_campos sep_decimal = inr cab ->
  pd.read_csv b sep_campos sep_decimal = inr itens ->
  fst (carregar_e_preparar_dados a b w) = inr (RetTupla (Some df) (Some k)) ->
  exists cab' i j,
    normaliza cab = inr cab'
    /\ columns cab' = columns cab
    /\ indice k (columns itens) = Some i /\ indice k (columns cab) = Some j
    /\ columns df = pd.rotulos_esq (columns itens) (columns cab) k
                    ++ pd.rotulos_dir (columns itens) (columns cab) j
    /\ rows df = pd.left_join itens cab' i j
    /\ (forall l, filter (pd.casa i j l) (rows cab') = casam cab' itens k l)
    /\ (forall l, List.length (casam cab' itens k l)
                  = List.length (casam cab itens k l)).
Proof.
  intros Ha Hb Hok.
  destruct (sucesso_inv _ _ _ _ _ _ _ Ha Hb Hok) as (Hk & cab' & Hn & Hm).
  pose proof (read_csv_retangular _ _ _ _ Ha) as Hret.
  destruct (normaliza_inr _ _ Hn Hret) as (Hcols & _).
  destruct (merge_inr _ _ _ _ Hm) as (i & j & Hi & Hj & Hc & Hr).
  rewrite Hcols in Hj, Hc.
  exists cab', i, j. repeat split; try assumption.
  - intros l. apply filter_casa_casam; [assumption | now rewrite Hcols].
  - intros l. apply (casam_normaliza cab cab' itens k j); try assumption.
    now apply (chave_nao_e_data cab itens).
Qed.

Lemma linhas_do_resultado (a b : Fonte) (w : list Evento)
    (cab itens df : DataFrame) (k : string) :
  pd.read_csv a sep_campos sep_decimal = inr cab ->
  pd.read_csv b sep_campos sep_decimal = inr itens ->
  fst (carregar_e_preparar_dados a b w) = inr (RetTupla (Some df) (Some k)) ->
  List.length (rows df)
  = list_sum (map (fun l => Nat.max 1 (List.length (casam cab itens k l)))
                  (rows itens)).
Proof.
  intros Ha Hb Hok.
  destruct (sucesso_forma _ _ _ _ _ _ _ Ha Hb Hok)
    as (cab' & i & j & _ & _ & _ & _ & _ & Hr & Hf & Hl).
  rewrite Hr, length_left_join. f_equal. apply map_ext.
  intros l. now rewrite Hf, Hl.
Qed.

Lemma In_remove_pos {A : Type} (n : nat) (l : list A) (x y : A) :
  nth_error l n = Some y -> In x l -> x <> y -> In x (remove_pos n l).
Proof.
  revert n. induction l as [| z r IH]; simpl; [contradiction |].
  intros [| m] Hn Hin Hxy; simpl in *.
  - injection Hn as ->. destruct Hin as [-> | Hin]; [contradiction | assumption].
  - destruct Hin as [-> | Hin]; [now left |]. right. now apply IH.
Qed.

Lemma nth_error_repeat_NaN (n p : nat) :
  p < n -> nth_error (repeat NaN n) p = Some NaN.
Proof.
  revert p. induction n as [| n IH]; intros p Hp; [lia |].
  destruct p as [| p]; simpl; [reflexivity |]. apply IH. lia.
Qed.

End Sucesso.

Lemma NoDup_app_disjunto {A : Type} (l1 l2 : list A) (x : A) :
  NoDup (l1 ++ l2) -> In x l1 -> ~ In x l2.
Proof.
  induction l1 as [| y r IH]; simpl; [contradiction |].
  intros Hnd [-> | Hin] H2.
  - apply NoDup_cons_iff in Hnd. destruct Hnd as [Hnot _].
    apply Hnot. apply in_or_app. now right.
  - apply NoDup_cons_iff in Hnd. destruct Hnd as [_ Hnd]. now apply IH.
Qed.

(** * The claims *)

(** ** C1: row count of the merged frame *)

(** C1, as the claim states it, fails: with two header rows under the key of
    one item row the merged frame has two rows for that one item row. *)
Lemma C1_cabecalho_repetido_duplica_item :
  exists df k,
    fst (Exemplo.executa (inr Exemplo.cab_duplo) (inr Exemplo.itens_um))
    = inr (RetTupla (Some df) (Some k))
    /\ List.length (rows df) <> List.length (rows Exemplo.itens_um).
Proof.
  eexists. eexists. split; [vm_compute; reflexivity |].
  vm_compute. discriminate.
Qed.

(** C1, amended: when the call succeeds and no item row has its key value in
    more than one header row, the merged frame has exactly as many rows as
    the items frame. *)
Theorem C1_uma_linha_por_item {P : Pandas} (a b : Fonte) (w : list Evento)
    (cab itens df : DataFrame) (k : string) :
  pd.read_csv a sep_campos sep_decimal = inr cab ->
  pd.read_csv b sep_campos sep_decimal = inr itens ->
  fst (carregar_e_preparar_dados a b w) = inr (RetTupla (Some df) (Some k)) ->
  (forall l, In l (rows itens) -> List.length (casam cab itens k l) <= 1) ->
  List.length (rows df) = List.length (rows itens).
Proof.
  intros Ha Hb Hok Huma.
  rewrite (linhas_do_resultado a b w cab itens df k Ha Hb Hok).
  apply list_sum_uns. intros l Hl. specialize (Huma l Hl). lia.
Qed.

Lemma C1_uma_linha_por_item_witness :
  List.length (rows Exemplo.completo6) = List.length (rows Exemplo.itens6).
Proof.
  apply (C1_uma_linha_por_item (P := Exemplo.pandas)
           (inr Exemplo.cab6) (inr Exemplo.itens6) []
           Exemplo.cab6 Exemplo.itens6 Exemplo.completo6 "NÚMERO"%string).
  - reflexivity.
  - reflexivity.
  - vm_compute. reflexivity.
  - intros l [<- | [<- | []]]; vm_compute; lia.
Defined.

(** ** C4: item rows without a header *)

(** C4: when the call succeeds, an item row whose key value is in no header
    row is a row of the merged frame, followed by one missing value under
    each label that comes from the header; under a label of the header that
    the items frame does not have, the row holds the missing value. *)
Theorem C4_item_sem_cabecalho_permanece {P : Pandas} (a b : Fonte)
    (w : list Evento) (cab itens df : DataFrame) (k : string) (l : list Cell) :
  pd.read_csv a sep_campos sep_decimal = inr cab ->
  pd.read_csv b sep_campos sep_decimal = inr itens ->
  fst (carregar_e_preparar_dados a b w) = inr (RetTupla (Some df) (Some k)) ->
  In l (rows itens) ->
  casam cab itens k l = [] ->
  exists j,
    let linha := l ++ repeat NaN (List.length (columns cab) - 1) in
    let esq := pd.rotulos_esq (columns itens) (columns cab) k in
    let dir := pd.rotulos_dir (columns itens) (columns cab) j in
    indice k (columns cab) = Some j
    /\ In linha (rows df)
    /\ columns df = esq ++ dir
    /\ List.length esq = List.length l
    /\ List.length dir = List.length (columns cab) - 1
    /\ (NoDup (columns df) ->
        forall c, In c (columns cab) -> ~ In c (columns itens) ->
                  valor df linha c = Some NaN).
Proof.
  intros Ha Hb Hok Hl Hnone.
  destruct (sucesso_forma _ _ _ _ _ _ _ Ha Hb Hok)
    as (cab' & i & j & _ & Hcols & Hi & Hj & Hc & Hr & Hf & Hlen).
  pose proof (read_csv_retangular _ _ _ _ Hb) as Hret.
  pose proof (retangular_linha itens l Hret Hl) as Hll.
  destruct (indice_Some _ _ _ Hj) as [Hjlt Hjnth].
  exists j. cbv zeta.
  assert (Hesq : List.length (pd.rotulos_esq (columns itens) (columns cab) k)
                 = List.length l).
  { unfold pd.rotulos_esq. now rewrite length_map. }
  assert (Hdir : List.length (pd.rotulos_dir (columns itens) (columns cab) j)
                 = List.length (columns cab) - 1).
  { unfold pd.rotulos_dir. rewrite length_map. now apply length_remove_pos. }
  repeat split; try assumption.
  - rewrite Hr, <- Hcols. apply sem_par_fica; [assumption |].
    rewrite Hf. apply length_zero_iff_nil. rewrite Hlen, Hnone. reflexivity.
  - intros Hnd c Hcab Hitens.
    assert (Hck : c <> k).
    { intros ->. apply Hitens. apply indice_Some in Hi.
      destruct Hi as [_ Hi]. now apply nth_error_In in Hi. }
    assert (Hcdir : In c (pd.rotulos_dir (columns itens) (columns cab) j)).
    { unfold pd.rotulos_dir. apply in_map_iff. exists c. split.
      - destruct (pertence c (columns itens)) eqn:Hp; [| reflexivity].
        apply pertence_In in Hp. contradiction.
      - now apply (In_remove_pos j (columns cab) c k). }
    assert (Hcdf : pertence c (columns df) = true).
    { apply pertence_In. rewrite Hc. apply in_or_app. now right. }
    destruct (indice_pertence _ _ Hcdf) as [p Hp].
    unfold valor. rewrite Hp.
    destruct (indice_Some _ _ _ Hp) as [Hplt Hpnth].
    rewrite Hc in Hplt, Hpnth, Hnd. rewrite length_app, Hesq, Hdir in Hplt.
    destruct (Nat.lt_ge_cases p (List.length l)) as [Hlt | Hge].
    + exfalso. rewrite nth_error_app1 in Hpnth by lia.
      apply nth_error_In in Hpnth.
      now apply (NoDup_app_disjunto _ _ c Hnd Hpnth).
    + rewrite nth_error_app2 by assumption.
      apply nth_error_repeat_NaN. lia.
Qed.

Lemma C4_item_sem_cabecalho_permanece_witness :
  In [Txt "2"; Txt "Gadget"; Txt "1"; NaN; NaN] (rows Exemplo.completo6)
  /\ valor Exemplo.completo6 [Txt "2"; Txt "Gadget"; Txt "1"; NaN; NaN]
           "Fornecedor" = Some NaN.
Proof.
  destruct (C4_item_sem_cabecalho_permanece (P := Exemplo.pandas)
              (inr Exemplo.cab6) (inr Exemplo.itens6) []
              Exemplo.cab6 Exemplo.itens6 Exemplo.completo6 "NÚMERO"%string
              [Txt "2"; Txt "Gadget"; Txt "1"]
              eq_refl eq_refl eq_refl (or_intror (or_introl eq_refl)) eq_refl)
    as (j & _ & Hin & _ & _ & _ & Hval).
  split; [exact Hin |].
  apply Hval.
  - vm_compute. repeat constructor; simpl; intuition discriminate.
  - vm_compute. tauto.
  - vm_compute. intuition discriminate.
Defined.

(** ** C7: the scenario of the spec *)

(** C7: on the header [{NÚMERO: 1, Fornecedor: ACME, ValorTotal: 100.00}] and
    the items [{NÚMERO: 1, Produto: Widget, Quantidade: 2}, {NÚMERO: 2,
    Produto: Gadget, Quantidade: 1}] the call returns the key NÚMERO and a
    frame of two rows; the Widget row has Fornecedor ACME and the Gadget row
    has Fornecedor missing. *)
Theorem C7_cenario {P : Pandas} (a b : Fonte) (w : list Evento) :
  pd.read_csv a sep_campos sep_decimal = inr Exemplo.cab6 ->
  pd.read_csv b sep_campos sep_decimal = inr Exemplo.itens6 ->
  recusa_merge Exemplo.itens6 Exemplo.cab6 "NÚMERO"%string = None ->
  exists df widget gadget,
    fst (carregar_e_preparar_dados a b w)
    = inr (RetTupla (Some df) (Some "NÚMERO"%string))
    /\ rows df = [widget; gadget]
    /\ valor df widget "Produto" = Some (Txt "Widget")
    /\ valor df widget "Fornecedor" = Some (Txt "ACME")
    /\ valor df gadget "Produto" = Some (Txt "Gadget")
    /\ valor df gadget "Fornecedor" = Some NaN.
Proof.
  intros Ha Hb Hm.
  exists Exemplo.completo6,
    [Txt "1"; Txt "Widget"; Txt "2"; Txt "ACME"; Txt "100.00"],
    [Txt "2"; Txt "Gadget"; Txt "1"; NaN; NaN].
  split; [| repeat split].
  rewrite carregar_casos, Ha, Hb.
  change (procura_chave colunas_candidatas Exemplo.cab6 Exemplo.itens6)
    with (Some "NÚMERO"%string).
  change (normaliza Exemplo.cab6)
    with (@inr Excecao DataFrame Exemplo.cab6).
  cbv beta iota.
  change (String.eqb "NÚMERO" "") with false. cbv iota.
  unfold pd.merge. rewrite Hm. reflexivity.
Qed.

Lemma C7_cenario_witness :
  exists df widget gadget,
    fst (Exemplo.executa (inr Exemplo.cab6) (inr Exemplo.itens6))
    = inr (RetTupla (Some df) (Some "NÚMERO"%string))
    /\ rows df = [widget; gadget]
    /\ valor df widget "Produto" = Some (Txt "Widget")
    /\ valor df widget "Fornecedor" = Some (Txt "ACME")
    /\ valor df gadget "Produto" = Some (Txt "Gadget")
    /\ valor df gadget "Fornecedor" = Some NaN.
Proof.
  apply (C7_cenario (P := Exemplo.pandas)
           (inr Exemplo.cab6) (inr Exemplo.itens6) []);
    reflexivity.
Defined.

(** ** C2: the join key *)

(** C2: the key the call decides on is the first name of the candidate list
    that labels a column of both parsed frames, whatever else they share;
    the list is the single name NÚMERO.  The call goes on with that key: it
    is the key the join is made on and the key returned; and the call
    reports a missing key exactly when no candidate labels a column of
    both frames. *)
Theorem C2_chave_e_a_primeira_candidata_comum {P : Pandas} (a b : Fonte)
    (w : list Evento) (cab itens : DataFrame) :
  pd.read_csv a sep_campos sep_decimal = inr cab ->
  pd.read_csv b sep_campos sep_decimal = inr itens ->
  colunas_candidatas = ["NÚMERO"%string]
  /\ (forall candidatas k,
        procura_chave candidatas cab itens = Some k
        <-> primeira_comum candidatas cab itens k)
  /\ (In "NÚMERO"%string (columns cab) -> In "NÚMERO"%string (columns itens) ->
      procura_chave colunas_candidatas cab itens = Some "NÚMERO"%string)
  /\ (forall df k,
        fst (carregar_e_preparar_dados a b w)
        = inr (RetTupla (Some df) (Some k)) ->
        procura_chave colunas_candidatas cab itens = Some k)
  /\ (procura_chave colunas_candidatas cab itens = None ->
      fst (carregar_e_preparar_dados a b w) = inr RetNone)
  /\ (forall k,
        primeira_comum colunas_candidatas cab itens k ->
        carregar_e_preparar_dados a b w =
        match normaliza cab with
        | inl e =>
            (inr (RetTupla None None),
             w ++ [leu a; leu b; StError (msg_excecao e)])
        | inr cab' =>
            match pd.merge itens cab' k with
            | inl e =>
                (inr (RetTupla None None),
                 w ++ [leu a; leu b; StError (msg_excecao e)])
            | inr df =>
                (inr (RetTupla (Some df) (Some k)), w ++ [leu a; leu b])
            end
        end)
  /\ (In "NÚMERO"%string (columns cab) -> In "NÚMERO"%string (columns itens) ->
      fst (carregar_e_preparar_dados a b w) <> inr RetNone
      /\ forall cab' df,
           normaliza cab = inr cab' ->
           pd.merge itens cab' "NÚMERO" = inr df ->
           carregar_e_preparar_dados a b w
           = (inr (RetTupla (Some df) (Some "NÚMERO"%string)),
              w ++ [leu a; leu b]))
  /\ (fst (carregar_e_preparar_dados a b w) = inr RetNone
      <-> ~ (In "NÚMERO"%string (columns cab)
             /\ In "NÚMERO"%string (columns itens))).
Proof.
  intros Ha Hb.
  assert (Hsegue : forall k,
             procura_chave colunas_candidatas cab itens = Some k ->
             carregar_e_preparar_dados a b w =
             match normaliza cab with
             | inl e =>
                 (inr (RetTupla None None),
                  w ++ [leu a; leu b; StError (msg_excecao e)])
             | inr cab' =>
                 match pd.merge itens cab' k with
                 | inl e =>
                     (inr (RetTupla None None),
                      w ++ [leu a; leu b; StError (msg_excecao e)])
                 | inr df =>
                     (inr (RetTupla (Some df) (Some k)), w ++ [leu a; leu b])
                 end
             end).
  { intros k Hk. rewrite carregar_casos, Ha, Hb, Hk.
    destruct (procura_chave_atual_Some _ _ _ Hk) as (-> & _ & _).
    reflexivity. }
  assert (Hnum : In "NÚMERO"%string (columns cab) ->
                 In "NÚMERO"%string (columns itens) ->
                 procura_chave colunas_candidatas cab itens
                 = Some "NÚMERO"%string).
  { intros Hc Hi. rewrite procura_chave_atual.
    apply pertence_In in Hc, Hi. now rewrite Hc, Hi. }
  assert (Hnao : In "NÚMERO"%string (columns cab) ->
                 In "NÚMERO"%string (columns itens) ->
                 fst (carregar_e_preparar_dados a b w) <> inr RetNone).
  { intros Hc Hi. rewrite (Hsegue _ (Hnum Hc Hi)).
    destruct (normaliza cab) as [e | cab']; [discriminate |].
    destruct (pd.merge itens cab' "NÚMERO"); discriminate. }
  split; [reflexivity |]. split; [| split; [| split; [| split]]].
  - intros candidatas k. apply procura_chave_primeira.
  - exact Hnum.
  - intros df k Hok. now destruct (sucesso_inv _ _ _ _ _ _ _ Ha Hb Hok).
  - intros Hnone. now rewrite carregar_casos, Ha, Hb, Hnone.
  - split; [| split].
    + intros k Hk. apply Hsegue. now apply procura_chave_primeira.
    + intros Hc Hi. split; [now apply Hnao |].
      intros cab' df Hn Hm. rewrite (Hsegue _ (Hnum Hc Hi)), Hn, Hm.
      reflexivity.
    + split.
      * intros Hnone [Hc Hi]. now apply (Hnao Hc Hi).
      * intros Hsem. rewrite carregar_casos, Ha, Hb.
        assert (Hp : procura_chave colunas_candidatas cab itens = None).
        { apply procura_chave_nenhuma. intros c [<- | []]. exact Hsem. }
        now rewrite Hp.
Qed.

Lemma C2_chave_e_a_primeira_candidata_comum_witness :
  procura_chave colunas_candidatas Exemplo.cab6 Exemplo.itens6
  = Some "NÚMERO"%string
  /\ Exemplo.executa (inr Exemplo.cab6) (inr Exemplo.itens6)
     = (inr (RetTupla (Some Exemplo.completo6) (Some "NÚMERO"%string)),
        [] ++ [leu (P := Exemplo.pandas) (inr Exemplo.cab6);
               leu (P := Exemplo.pandas) (inr Exemplo.itens6)]).
Proof.
  destruct (C2_chave_e_a_primeira_candidata_comum (P := Exemplo.pandas)
              (inr Exemplo.cab6) (inr Exemplo.itens6) []
              Exemplo.cab6 Exemplo.itens6 eq_refl eq_refl)
    as (_ & _ & H & _ & _ & _ & Hvai & _).
  split.
  - apply H; simpl; tauto.
  - destruct Hvai as [_ Hvai]; [simpl; tauto | simpl; tauto |].
    apply (Hvai Exemplo.cab6 Exemplo.completo6); reflexivity.
Defined.

(** ** C3: no key *)

(** C3, on the code: when no candidate labels a column of both parsed frames
    the call shows one message and returns [None], with no frame; the
    message shown names 'ChaveNF' and 'ID_NF' and none of the candidates. *)
Theorem C3_mensagem_nao_cita_as_candidatas {P : Pandas} (a b : Fonte)
    (w : list Evento) (cab itens : DataFrame) :
  pd.read_csv a sep_campos sep_decimal = inr cab ->
  pd.read_csv b sep_campos sep_decimal = inr itens ->
  (forall c, In c colunas_candidatas ->
             ~ (In c (columns cab) /\ In c (columns itens))) ->
  carregar_e_preparar_dados a b w
  = (inr RetNone, w ++ [leu a; leu b; StError msg_sem_chave])
  /\ falha_de RetNone = Some NoJoinKeyError
  /\ tabela_de RetNone = None
  /\ (forall c, In c colunas_candidatas -> subcadeia c msg_sem_chave = false)
  /\ subcadeia "ChaveNF" msg_sem_chave = true
  /\ subcadeia "ID_NF" msg_sem_chave = true.
Proof.
  intros Ha Hb Hnone. apply procura_chave_nenhuma in Hnone.
  split; [now rewrite carregar_casos, Ha, Hb, Hnone |].
  repeat split.
  intros c [<- | []]. vm_compute. reflexivity.
Qed.

Lemma C3_mensagem_nao_cita_as_candidatas_witness :
  Exemplo.executa (inr Exemplo.cab_a) (inr Exemplo.itens_b)
  = (inr RetNone,
     [leu (P := Exemplo.pandas) (inr Exemplo.cab_a);
      leu (P := Exemplo.pandas) (inr Exemplo.itens_b);
      StError msg_sem_chave])
  /\ subcadeia "NÚMERO" msg_sem_chave = false.
Proof.
  destruct (C3_mensagem_nao_cita_as_candidatas (P := Exemplo.pandas)
              (inr Exemplo.cab_a) (inr Exemplo.itens_b) []
              Exemplo.cab_a Exemplo.itens_b eq_refl eq_refl)
    as (Hrun & _ & _ & Hmsg & _).
  - intros c [<- | []]. vm_compute. intuition discriminate.
  - split; [exact Hrun |]. apply Hmsg. now left.
Defined.

(** ** The trace of a call *)

(** One or two reads, then one message exactly when the call fails. *)
Lemma rastro {P : Pandas} (a b : Fonte) (w : list Evento) :
  exists r leituras erros,
    carregar_e_preparar_dados a b w = (inr r, w ++ leituras ++ erros)
    /\ (leituras = [leu a]
        /\ (exists e, pd.read_csv a sep_campos sep_decimal = inl e)
        \/ leituras = [leu a; leu b]
           /\ (exists cab, pd.read_csv a sep_campos sep_decimal = inr cab))
    /\ match falha_de r with
       | None => erros = []
       | Some LoadError => exists e, erros = [StError (msg_excecao e)]
       | Some NoJoinKeyError => erros = [StError msg_sem_chave]
       end.
Proof.
  rewrite carregar_casos.
  destruct (pd.read_csv a sep_campos sep_decimal) as [e | cab].
  { exists (RetTupla None None), [leu a], [StError (msg_excecao e)].
    split; [reflexivity |]. split; [left; split; eauto | simpl; eauto]. }
  assert (Hduas : [leu a; leu b] = [leu a; leu b]
                  /\ exists cab0 : DataFrame, @inr Excecao _ cab = inr cab0)
    by (split; eauto).
  destruct (pd.read_csv b sep_campos sep_decimal) as [e | itens].
  { exists (RetTupla None None), [leu a; leu b], [StError (msg_excecao e)].
    split; [reflexivity |]. split; [now right | simpl; eauto]. }
  destruct (procura_chave colunas_candidatas cab itens) as [k |].
  2: { exists RetNone, [leu a; leu b], [StError msg_sem_chave].
       split; [reflexivity |]. split; [now right | reflexivity]. }
  destruct (String.eqb k "").
  { exists RetNone, [leu a; leu b], [StError msg_sem_chave].
    split; [reflexivity |]. split; [now right | reflexivity]. }
  destruct (normaliza cab) as [e | cab'].
  { exists (RetTupla None None), [leu a; leu b], [StError (msg_excecao e)].
    split; [reflexivity |]. split; [now right | simpl; eauto]. }
  destruct (pd.merge itens cab' k) as [e | df].
  { exists (RetTupla None None), [leu a; leu b], [StError (msg_excecao e)].
    split; [reflexivity |]. split; [now right | simpl; eauto]. }
  exists (RetTupla (Some df) (Some k)), [leu a; leu b], [].
  split; [reflexivity |]. split; [now right | reflexivity].
Qed.

(** * The claims on effects and failures *)

(** ** C5: the separators *)

(** C5, as the claim states it, fails: the reads of the scenario are not
    made with the comma as decimal separator. *)
Lemma C5_decimal_nao_e_virgula :
  ~ Forall (le_com (P := Exemplo.pandas) "," ",")
           (snd (Exemplo.executa (inr Exemplo.cab6) (inr Exemplo.itens6))).
Proof.
  intros H. apply Forall_inv in H. destruct H as [_ Hdec].
  discriminate Hdec.
Qed.

(** C5, amended: every read the call makes uses the comma as field
    separator and the full stop as decimal separator; the header upload is
    read, and the items upload is read once the header has parsed. *)
Theorem C5_separadores {P : Pandas} (a b : Fonte) (w : list Evento) :
  exists evs,
    snd (carregar_e_preparar_dados a b w) = w ++ evs
    /\ Forall (le_com "," ".") evs
    /\ In (Leitura a "," ".") evs
    /\ (forall cab, pd.read_csv a "," "." = inr cab ->
                    In (Leitura b "," ".") evs).
Proof.
  destruct (rastro a b w) as (r & leituras & erros & Hrun & Hleu & Herr).
  exists (leituras ++ erros). rewrite Hrun. split; [reflexivity |].
  assert (Hl : forall f, le_com "," "." (leu f)) by (intros f; now split).
  assert (He : Forall (le_com "," ".") erros).
  { destruct (falha_de r) as [[|] |].
    - destruct Herr as [e ->]. now repeat constructor.
    - subst erros. now repeat constructor.
    - subst erros. constructor. }
  destruct Hleu as [[-> [e Hfalha]] | [-> _]].
  - split; [| split].
    + apply Forall_app. split; [now repeat constructor | assumption].
    + now left.
    + intros cab Hcab. unfold sep_campos, sep_decimal in Hfalha. congruence.
  - split; [| split].
    + apply Forall_app. split; [now repeat constructor | assumption].
    + now left.
    + intros _ _. right. now left.
Qed.

Lemma C5_separadores_witness :
  exists evs,
    snd (Exemplo.executa (inr Exemplo.cab6) (inr Exemplo.itens6)) = [] ++ evs
    /\ Forall (le_com "," ".") evs
    /\ In (Leitura (P := Exemplo.pandas) (inr Exemplo.itens6) "," ".") evs.
Proof.
  destruct (C5_separadores (P := Exemplo.pandas)
              (inr Exemplo.cab6) (inr Exemplo.itens6) [])
    as (evs & Hrun & Hsep & _ & Hb).
  exists evs. split; [exact Hrun |]. split; [exact Hsep |].
  apply (Hb Exemplo.cab6). reflexivity.
Defined.

(** ** C9: effects *)

(** C9, as the claim states it, fails: on two uploads with no column in
    common the call leaves behind an event that is not a read. *)
Lemma C9_falha_mostra_mensagem :
  forallb eh_leitura
    (snd (Exemplo.executa (inr Exemplo.cab_a) (inr Exemplo.itens_b))) = false
  /\ In (StError msg_sem_chave)
        (snd (Exemplo.executa (inr Exemplo.cab_a) (inr Exemplo.itens_b))).
Proof. split; [reflexivity | right; right; now left]. Qed.

(** C9, amended: the call leaves what came before untouched; it reads the
    header upload and, exactly when that parsed, the items upload after it;
    when it succeeds it does nothing else, and on each failure path it shows
    one message with [st.error] and does nothing else. *)
Theorem C9_efeitos {P : Pandas} (a b : Fonte) (w : list Evento) :
  exists r leituras erros,
    carregar_e_preparar_dados a b w = (inr r, w ++ leituras ++ erros)
    /\ (leituras = [leu a]
        /\ (exists e, pd.read_csv a sep_campos sep_decimal = inl e)
        \/ leituras = [leu a; leu b]
           /\ (exists cab, pd.read_csv a sep_campos sep_decimal = inr cab))
    /\ forallb eh_leitura leituras = true
    /\ match falha_de r with
       | None => erros = []
       | Some LoadError => exists e, erros = [StError (msg_excecao e)]
       | Some NoJoinKeyError => erros = [StError msg_sem_chave]
       end.
Proof.
  destruct (rastro a b w) as (r & leituras & erros & Hrun & Hleu & Herr).
  exists r, leituras, erros. split; [assumption |].
  split; [assumption |]. split; [| assumption].
  destruct Hleu as [[-> _] | [-> _]]; reflexivity.
Qed.

(** ** C8: all or nothing *)

(** C8: the call always returns, and what it returns is the pair of the full
    left join with the key, or [None] with no frame (no key), or the pair
    [(None, None)] with no frame (an exception). *)
Theorem C8_tudo_ou_nada {P : Pandas} (a b : Fonte) (w : list Evento) :
  exists r w',
    carregar_e_preparar_dados a b w = (inr r, w')
    /\ ((exists cab itens cab' df k,
           pd.read_csv a sep_campos sep_decimal = inr cab
           /\ pd.read_csv b sep_campos sep_decimal = inr itens
           /\ procura_chave colunas_candidatas cab itens = Some k
           /\ normaliza cab = inr cab'
           /\ pd.merge itens cab' k = inr df
           /\ r = RetTupla (Some df) (Some k)
           /\ falha_de r = None)
        \/ (r = RetNone
            /\ falha_de r = Some NoJoinKeyError /\ tabela_de r = None)
        \/ (r = RetTupla None None
            /\ falha_de r = Some LoadError /\ tabela_de r = None)).
Proof.
  rewrite carregar_casos.
  destruct (pd.read_csv a sep_campos sep_decimal) as [e | cab] eqn:Ha.
  { eexists. eexists. split; [reflexivity |]. right. right. repeat split. }
  destruct (pd.read_csv b sep_campos sep_decimal) as [e | itens] eqn:Hb.
  { eexists. eexists. split; [reflexivity |]. right. right. repeat split. }
  destruct (procura_chave colunas_candidatas cab itens) as [k |] eqn:Hk.
  2: { eexists. eexists. split; [reflexivity |]. right. left. repeat split. }
  destruct (String.eqb k "").
  { eexists. eexists. split; [reflexivity |]. right. left. repeat split. }
  destruct (normaliza cab) as [e | cab'] eqn:Hn.
  { eexists. eexists. split; [reflexivity |]. right. right. repeat split. }
  destruct (pd.merge itens cab' k) as [e | df] eqn:Hm.
  { eexists. eexists. split; [reflexivity |]. right. right. repeat split. }
  eexists. eexists. split; [reflexivity |]. left.
  exists cab, itens, cab', df, k. repeat split; assumption.
Qed.

(** ** C10: the two failure shapes *)

(** C10: when no candidate labels a column of both parsed frames the call
    returns the single value [None], and the unpacking of line 106 raises;
    when the body of the [try] raises, the call returns the pair
    [(None, None)], which line 106 unpacks. *)
Theorem C10_falhas_de_formas_diferentes {P : Pandas} (a b : Fonte)
    (w : list Evento) (cab itens : DataFrame) :
  pd.read_csv a sep_campos sep_decimal = inr cab ->
  pd.read_csv b sep_campos sep_decimal = inr itens ->
  (forall c, In c colunas_candidatas ->
             ~ (In c (columns cab) /\ In c (columns itens))) ->
  fst (carregar_e_preparar_dados a b w) = inr RetNone
  /\ (exists e, fst (linha_106 a b w) = inl e)
  /\ (forall a' b' w' e,
        fst (corpo a' b' w') = inl e ->
        fst (carregar_e_preparar_dados a' b' w') = inr (RetTupla None None)
        /\ fst (linha_106 a' b' w') = inr (None, None))
  /\ RetNone <> RetTupla None None.
Proof.
  intros Ha Hb Hnone. apply procura_chave_nenhuma in Hnone.
  assert (Hrun : carregar_e_preparar_dados a b w
                 = (inr RetNone, w ++ [leu a; leu b; StError msg_sem_chave])).
  { now rewrite carregar_casos, Ha, Hb, Hnone. }
  split; [now rewrite Hrun |]. split; [| split].
  - unfold linha_106, bind. rewrite Hrun. simpl. eauto.
  - intros a' b' w' e Hcorpo.
    assert (Hr : fst (carregar_e_preparar_dados a' b' w')
                 = inr (RetTupla None None)).
    { unfold carregar_e_preparar_dados, try_except.
      destruct (corpo a' b' w') as [[e0 | r0] w0]; [reflexivity |].
      discriminate Hcorpo. }
    split; [exact Hr |].
    unfold linha_106, bind.
    destruct (carregar_e_preparar_dados a' b' w') as [[e0 | r0] w0];
      simpl in Hr; [discriminate |].
    injection Hr as ->. reflexivity.
  - discriminate.
Qed.

Lemma C10_falhas_de_formas_diferentes_witness :
  fst (Exemplo.executa (inr Exemplo.cab_a) (inr Exemplo.itens_b)) = inr RetNone
  /\ (exists e,
        fst (linha_106 (P := Exemplo.pandas)
               (inr Exemplo.cab_a) (inr Exemplo.itens_b) []) = inl e)
  /\ fst (linha_106 (P := Exemplo.pandas)
            (inl "EmptyDataError"%string) (inr Exemplo.itens_b) [])
     = inr (None, None).
Proof.
  destruct (C10_falhas_de_formas_diferentes (P := Exemplo.pandas)
              (inr Exemplo.cab_a) (inr Exemplo.itens_b) []
              Exemplo.cab_a Exemplo.itens_b eq_refl eq_refl)
    as (Hnone & Hunpack & Hexc & _).
  - intros c [<- | []]. vm_compute. intuition discriminate.
  - split; [exact Hnone |]. split; [exact Hunpack |].
    apply (Hexc (inl "EmptyDataError"%string) (inr Exemplo.itens_b) []
                "EmptyDataError"%string).
    reflexivity.
Defined.

(** ** C6: the date columns *)

Lemma linhas_de_forma {P : Pandas} (dir : DataFrame) (i j : nat) (l linha : list Cell) :
  In linha (pd.linhas_de dir i j l) ->
  linha = l ++ repeat NaN (List.length (columns dir) - 1)
  \/ exists r, In r (rows dir) /\ pd.casa i j l r = true
               /\ linha = l ++ remove_pos j r.
Proof.
  unfold pd.linhas_de.
  destruct (filter (pd.casa i j l) (rows dir)) as [| m ms] eqn:Hf.
  - intros [<- | []]. now left.
  - intros Hin. apply in_map_iff in Hin. destruct Hin as (r & <- & Hr).
    rewrite <- Hf in Hr. apply filter_In in Hr. right. now exists r.
Qed.



(** Without a key column the key check of lines 31-33 comes first: the
    dates are not looked at. *)
Example ex_data_ruim_sem_chave :
  fst (Exemplo.executa (inr Exemplo.cab_data_ruim_sem_chave)
                       (inr Exemplo.itens6)) = inr RetNone.
Proof. reflexivity. Qed.



(** * The script *)

Section Script.
Context {P : Pandas} {L : LangChain}.

Lemma mostra_eq (ms : list Mensagem) (s : Estado) :
  mostra ms s = (inr tt, mkEstado (sessao s) (feito s ++ map exibida ms)).
Proof.
  revert s. induction ms as [| m resto IH]; intros [x f]; simpl.
  - unfold ret_s. simpl. now rewrite app_nil_r.
  - unfold bind_s, faz. simpl. rewrite IH. simpl.
    now rewrite <- app_assoc.
Qed.

Lemma forallb_exibida (ms : list Mensagem) :
  forallb da_conversa (map exibida ms) = true.
Proof. induction ms as [| m r IH]; simpl; [reflexivity | exact IH]. Qed.

Lemma filter_pergunta_exibida (ms : list Mensagem) :
  filter eh_pergunta (map exibida ms) = [].
Proof. induction ms as [| m r IH]; simpl; [reflexivity | exact IH]. Qed.

Lemma filter_pergunta_carga (evs : list Evento) :
  filter eh_pergunta (map DaCarga evs) = [].
Proof. induction evs as [| m r IH]; simpl; [reflexivity | exact IH]. Qed.

(** Line 106 leaves the trace of the call it makes, and raises exactly when
    the call returns the single [None]. *)
Lemma linha_106_eq (a b : Fonte) (w : list Evento) :
  linha_106 a b w =
  match carregar_e_preparar_dados a b w with
  | (inl e, w') => (inl e, w')
  | (inr r, w') => (desempacota r, w')
  end.
Proof.
  unfold linha_106, bind, eleva.
  now destruct (carregar_e_preparar_dados a b w) as [[e | r] w'].
Qed.

End Script.

Ltac abre_script :=
  unfold executa_script, script, inicia_agente, processa, apresenta,
    criar_agente, inicia_historico, exibe_historico, interacao, responde,
    acrescenta, le_agente, grava_agente, le_mensagens, chama, try_s, bind_s,
    ret_s, eleva_s, faz, le_sessao, grava_sessao.

Ltac reduz_script :=
  cbn [sessao feito agent_executor messages fst snd
       gemini_api_key uploaded_cabecalho uploaded_itens prompt] in *.

(** One step of the run: the innermost test that is ready is decided. *)
Ltac passo_script :=
  match goal with
  | |- context [mostra ?ms ?s] => rewrite (mostra_eq ms s)
  | |- context [match ?x with _ => _ end] =>
      lazymatch x with
      | context [match _ with _ => _ end] => fail
      | _ => destruct x eqn:?
      end
  end; reduz_script.

Ltac roda_script := abre_script; reduz_script; repeat passo_script.

(** ** Building the agent *)

(** [criar_agente] never raises and never touches the session: it
    returns the agent and draws nothing when the agent can be built, and
    otherwise returns [None] after drawing one error that ends with the text
    of the exception. *)
Lemma criar_agente_nunca_levanta {P : Pandas} {L : LangChain}
    (df : DataFrame) (api_key : string) (s : Estado) :
  exists r,
    fst (criar_agente df api_key s) = inr r
    /\ sessao (snd (criar_agente df api_key s)) = sessao s
    /\ match monta_agente df api_key with
       | inr ag =>
           r = Some ag /\ feito (snd (criar_agente df api_key s)) = feito s
       | inl e =>
           r = None
           /\ feito (snd (criar_agente df api_key s))
              = feito s ++ [Tela None (Error (msg_falha_agente e))]
       end.
Proof.
  unfold criar_agente, try_s, bind_s, eleva_s, ret_s, faz.
  destruct (monta_agente df api_key) as [e | ag]; simpl; eauto.
Qed.

(** ** X2: the test of line 103 *)

(** X2: while the key is empty or one of the two uploads is missing, a run
    runs to its end, reads no file, builds no agent and announces nothing:
    the session keeps the agent it had, and all the run does belongs to the
    conversation. *)
Theorem X2_portao_fechado_nao_le {P : Pandas} {L : LangChain}
    (e : Entrada) (x : Sessao) :
  portao e = false ->
  fst (executa_script e x) = inr tt
  /\ agente_de (sessao_apos x e) = agente_de x
  /\ forallb da_conversa (feito (snd (executa_script e x))) = true.
Proof.
  intros Hp. unfold sessao_apos, portao in *.
  destruct x as [ae ms]. destruct e as [k ca it p]. reduz_script.
  abre_script; reduz_script.
  destruct (negb (String.eqb k "")), ca as [a |], it as [b |];
    try discriminate Hp;
    repeat passo_script;
    unfold agente_de; reduz_script;
    (repeat split; try reflexivity);
    rewrite ?forallb_app, ?forallb_exibida; reflexivity.
Qed.

Lemma X2_portao_fechado_nao_le_witness :
  fst (ExemploPagina.roda
         (ExemploPagina.entrada "" (Some (inr Exemplo.cab6))
            (Some (inr Exemplo.itens6)) (Some "qual o total?"%string))
         ExemploPagina.com_agente) = inr tt
  /\ forallb da_conversa
       (feito (snd (ExemploPagina.roda
                      (ExemploPagina.entrada "" (Some (inr Exemplo.cab6))
                         (Some (inr Exemplo.itens6))
                         (Some "qual o total?"%string))
                      ExemploPagina.com_agente))) = true.
Proof.
  destruct (X2_portao_fechado_nao_le (P := Exemplo.pandas)
              (L := ExemploPagina.langchain)
              (ExemploPagina.entrada "" (Some (inr Exemplo.cab6))
                 (Some (inr Exemplo.itens6)) (Some "qual o total?"%string))
              ExemploPagina.com_agente eq_refl) as (Hfim & _ & Hconv).
  split; [exact Hfim | exact Hconv].
Defined.

(** ** X3: the agent of the session *)

Lemma agente_fica_uma {P : Pandas} {L : LangChain} (x : Sessao) (e : Entrada)
    (ag : Agente) :
  agent_executor x = Some (Some ag) ->
  agent_executor (sessao_apos x e) = Some (Some ag).
Proof.
  intros H. unfold sessao_apos. destruct x as [ae ms]. simpl in H. subst ae.
  roda_script; try reflexivity; discriminate.
Qed.

(** X3: once the session holds an agent, no run replaces it or drops it,
    whatever is uploaded or asked afterwards and even when a run stops on an
    exception: after any sequence of runs the session holds the same
    agent. *)
Theorem X3_agente_fica {P : Pandas} {L : LangChain} (es : list Entrada)
    (x : Sessao) (ag : Agente) :
  agent_executor x = Some (Some ag) ->
  agent_executor (sessao_apos_todas es x) = Some (Some ag).
Proof.
  unfold sessao_apos_todas. revert x.
  induction es as [| e resto IH]; intros x H; simpl; [assumption |].
  apply IH. now apply agente_fica_uma.
Qed.

Lemma X3_agente_fica_witness :
  agent_executor
    (sessao_apos_todas (P := Exemplo.pandas) (L := ExemploPagina.langchain)
       [ExemploPagina.entrada "k" (Some (inr Exemplo.cab_duplo))
          (Some (inr Exemplo.itens_um)) None;
        ExemploPagina.entrada "k" (Some (inr Exemplo.cab_a))
          (Some (inr Exemplo.itens_b)) (Some "oi"%string)]
       ExemploPagina.com_agente)
  = Some (Some Exemplo.completo6).
Proof.
  apply (X3_agente_fica (P := Exemplo.pandas) (L := ExemploPagina.langchain)).
  reflexivity.
Defined.

(** ** X4: the history *)

Lemma historico_cresce_uma {P : Pandas} {L : LangChain} (x : Sessao)
    (e : Entrada) :
  exists novas,
    historico (sessao_apos x e) = historico x ++ novas
    /\ List.length novas <= 2.
Proof.
  unfold sessao_apos. destruct x as [ae ms].
  roda_script; unfold historico; reduz_script;
    try discriminate;
    repeat match goal with
           | H : Some _ = Some _ |- _ => injection H as H; subst
           end;
    first [ exists []; rewrite app_nil_r; split; [reflexivity | simpl; lia]
          | eexists; split; [reflexivity | simpl; lia]
          | eexists; split; [rewrite <- app_assoc; reflexivity | simpl; lia]
          | exists []; split; [reflexivity | simpl; lia] ].
Qed.

(** X4: no run removes, changes or reorders a stored message: after any
    sequence of runs the history is the earlier history followed by at most
    two new messages per run. *)
Theorem X4_historico_so_cresce {P : Pandas} {L : LangChain} (es : list Entrada)
    (x : Sessao) :
  exists novas,
    historico (sessao_apos_todas es x) = historico x ++ novas
    /\ List.length novas <= 2 * List.length es.
Proof.
  unfold sessao_apos_todas. revert x.
  induction es as [| e resto IH]; intros x; simpl fold_left.
  - exists []. rewrite app_nil_r. split; [reflexivity | simpl; lia].
  - destruct (IH (sessao_apos x e)) as (n2 & H2 & L2).
    destruct (historico_cresce_uma x e) as (n1 & H1 & L1).
    exists (n1 ++ n2). rewrite H2, H1, <- app_assoc.
    split; [reflexivity |]. rewrite length_app. simpl List.length. lia.
Qed.

(** ** X5, X6: the first successful load *)

Ltac arruma_feito :=
  rewrite <- ?app_assoc; cbn [app].

(** X5: when the key and both uploads are given, the load succeeds, the
    session holds no agent and the agent can be built, the run stores the
    new agent in the session and, right after the load, announces the
    success and shows a preview of at most five rows of the merged frame;
    whatever else the run does belongs to the conversation. *)
Theorem X5_agente_criado_na_primeira_carga {P : Pandas} {L : LangChain}
    (e : Entrada) (x : Sessao) (a b : Fonte) (df : DataFrame)
    (ch : option string) (evs : list Evento) (ag : Agente) :
  String.eqb (gemini_api_key e) "" = false ->
  uploaded_cabecalho e = Some a ->
  uploaded_itens e = Some b ->
  carregar_e_preparar_dados a b [] = (inr (RetTupla (Some df) ch), evs) ->
  agente_de x = None ->
  monta_agente df (gemini_api_key e) = inr ag ->
  fst (executa_script e x) = inr tt
  /\ agent_executor (sessao_apos x e) = Some (Some ag)
  /\ (exists resto,
        feito (snd (executa_script e x))
        = map DaCarga evs
          ++ [Tela None (Success (msg_sucesso ch));
              Tela None (Dataframe (head df))]
          ++ resto
        /\ forallb da_conversa resto = true)
  /\ List.length (rows (head df)) <= 5
  /\ columns (head df) = columns df.
Proof.
  intros Hk Ha Hb Hcarga Hx Hm. unfold sessao_apos.
  destruct x as [ae ms]. destruct e as [k ca it p]. reduz_script.
  subst ca it. unfold agente_de in Hx. reduz_script.
  abre_script; reduz_script.
  rewrite Hk, linha_106_eq, Hcarga. cbn [negb desempacota]. reduz_script.
  assert (Hhead : List.length (rows (head df)) <= 5).
  { unfold head. cbn [rows]. rewrite length_firstn. lia. }
  destruct ae as [[ag0 |] |]; try discriminate Hx; reduz_script;
    rewrite Hm; reduz_script;
    repeat passo_script;
    (split; [reflexivity |]); (split; [reflexivity |]);
    (split; [| split; [exact Hhead | reflexivity]]);
    arruma_feito; eexists; (split; [reflexivity |]);
    rewrite ?forallb_app, ?forallb_exibida; reflexivity.
Qed.

(** X6: in the same situation, when the agent cannot be built, the run
    shows the error of [criar_agente] and then still announces the success
    and shows the preview; the session is left without an agent. *)
Theorem X6_sucesso_anunciado_sem_agente {P : Pandas} {L : LangChain}
    (e : Entrada) (x : Sessao) (a b : Fonte) (df : DataFrame)
    (ch : option string) (evs : list Evento) (err : Excecao) :
  String.eqb (gemini_api_key e) "" = false ->
  uploaded_cabecalho e = Some a ->
  uploaded_itens e = Some b ->
  carregar_e_preparar_dados a b [] = (inr (RetTupla (Some df) ch), evs) ->
  agente_de x = None ->
  monta_agente df (gemini_api_key e) = inl err ->
  fst (executa_script e x) = inr tt
  /\ agent_executor (sessao_apos x e) = Some None
  /\ exists resto,
       feito (snd (executa_script e x))
       = map DaCarga evs
         ++ [Tela None (Error (msg_falha_agente err));
             Tela None (Success (msg_sucesso ch));
             Tela None (Dataframe (head df))]
         ++ resto
       /\ forallb da_conversa resto = true.
Proof.
  intros Hk Ha Hb Hcarga Hx Hm. unfold sessao_apos.
  destruct x as [ae ms]. destruct e as [k ca it p]. reduz_script.
  subst ca it. unfold agente_de in Hx. reduz_script.
  abre_script; reduz_script.
  rewrite Hk, linha_106_eq, Hcarga. cbn [negb desempacota]. reduz_script.
  destruct ae as [[ag0 |] |]; try discriminate Hx; reduz_script;
    rewrite Hm; reduz_script;
    repeat passo_script;
    (split; [reflexivity |]); (split; [reflexivity |]);
    arruma_feito; eexists; (split; [reflexivity |]);
    rewrite ?forallb_app, ?forallb_exibida; reflexivity.
Qed.

Lemma X5_agente_criado_na_primeira_carga_witness :
  agent_executor
    (sessao_apos (P := Exemplo.pandas) (L := ExemploPagina.langchain)
       ExemploPagina.nova
       (ExemploPagina.entrada "k" (Some (inr Exemplo.cab6))
          (Some (inr Exemplo.itens6)) None))
  = Some (Some Exemplo.completo6).
Proof.
  destruct (X5_agente_criado_na_primeira_carga (P := Exemplo.pandas)
              (L := ExemploPagina.langchain)
              (ExemploPagina.entrada "k" (Some (inr Exemplo.cab6))
                 (Some (inr Exemplo.itens6)) None)
              ExemploPagina.nova (inr Exemplo.cab6) (inr Exemplo.itens6)
              Exemplo.completo6 (Some "NÚMERO"%string)
              [@Leitura Exemplo.pandas (inr Exemplo.cab6) "," ".";
               @Leitura Exemplo.pandas (inr Exemplo.itens6) "," "."]
              Exemplo.completo6
              eq_refl eq_refl eq_refl ex_cenario eq_refl eq_refl)
    as (_ & Hag & _).
  exact Hag.
Defined.

Lemma X6_sucesso_anunciado_sem_agente_witness :
  agent_executor
    (sessao_apos (P := Exemplo.pandas) (L := ExemploPagina.langchain)
       ExemploPagina.nova
       (ExemploPagina.entrada "chave-ruim" (Some (inr Exemplo.cab6))
          (Some (inr Exemplo.itens6)) None))
  = Some None
  /\ exists resto,
       feito (snd (ExemploPagina.roda
                     (ExemploPagina.entrada "chave-ruim"
                        (Some (inr Exemplo.cab6))
                        (Some (inr Exemplo.itens6)) None)
                     ExemploPagina.nova))
       = map DaCarga
           [@Leitura Exemplo.pandas (inr Exemplo.cab6) "," ".";
            @Leitura Exemplo.pandas (inr Exemplo.itens6) "," "."]
         ++ [Tela None (Error (msg_falha_agente "API key not valid"));
             Tela None (Success (msg_sucesso (Some "NÚMERO"%string)));
             Tela None (Dataframe (head Exemplo.completo6))]
         ++ resto
       /\ forallb da_conversa resto = true.
Proof.
  destruct (X6_sucesso_anunciado_sem_agente (P := Exemplo.pandas)
              (L := ExemploPagina.langchain)
              (ExemploPagina.entrada "chave-ruim" (Some (inr Exemplo.cab6))
                 (Some (inr Exemplo.itens6)) None)
              ExemploPagina.nova (inr Exemplo.cab6) (inr Exemplo.itens6)
              Exemplo.completo6 (Some "NÚMERO"%string)
              [@Leitura Exemplo.pandas (inr Exemplo.cab6) "," ".";
               @Leitura Exemplo.pandas (inr Exemplo.itens6) "," "."]
              "API key not valid"%string
              eq_refl eq_refl eq_refl ex_cenario eq_refl eq_refl)
    as (_ & Hag & Hfeito).
  split; [exact Hag | exact Hfeito].
Defined.

(** ** X7: no key column *)

(** X7: when the key and both uploads are given, both parse and no candidate
    labels a column of both frames, the run stops at line 106 on the
    unpacking error: apart from the message of the loading function nothing
    is drawn, the stored history is neither set up nor shown, and a question
    typed in that run is neither stored nor answered. *)
Theorem X7_sem_chave_interrompe_a_pagina {P : Pandas} {L : LangChain}
    (e : Entrada) (x : Sessao) (a b : Fonte) (cab itens : DataFrame) :
  String.eqb (gemini_api_key e) "" = false ->
  uploaded_cabecalho e = Some a ->
  uploaded_itens e = Some b ->
  pd.read_csv a sep_campos sep_decimal = inr cab ->
  pd.read_csv b sep_campos sep_decimal = inr itens ->
  (forall c, In c colunas_candidatas ->
             ~ (In c (columns cab) /\ In c (columns itens))) ->
  executa_script e x
  = (inl "cannot unpack non-iterable NoneType object"%string,
     mkEstado (mkSessao (Some (agente_de x)) (messages x))
              [DaCarga (leu a); DaCarga (leu b);
               DaCarga (StError msg_sem_chave)]).
Proof.
  intros Hk Ha Hb Hca Hit Hnone. apply procura_chave_nenhuma in Hnone.
  assert (Hcarga : carregar_e_preparar_dados a b []
                   = (inr RetNone, [leu a; leu b; StError msg_sem_chave])).
  { now rewrite carregar_casos, Hca, Hit, Hnone. }
  destruct x as [ae ms]. destruct e as [k ca it p]. reduz_script.
  subst ca it. abre_script; reduz_script.
  rewrite Hk, linha_106_eq, Hcarga. cbn [negb desempacota]. reduz_script.
  unfold agente_de. reduz_script.
  destruct ae as [ag |]; reflexivity.
Qed.

Lemma X7_sem_chave_interrompe_a_pagina_witness :
  ExemploPagina.roda
    (ExemploPagina.entrada "k" (Some (inr Exemplo.cab_a))
       (Some (inr Exemplo.itens_b)) (Some "qual o total?"%string))
    ExemploPagina.nova
  = (inl "cannot unpack non-iterable NoneType object"%string,
     mkEstado (mkSessao (Some None) None)
       [DaCarga (leu (P := Exemplo.pandas) (inr Exemplo.cab_a));
        DaCarga (leu (P := Exemplo.pandas) (inr Exemplo.itens_b));
        DaCarga (StError msg_sem_chave)]).
Proof.
  apply (X7_sem_chave_interrompe_a_pagina (P := Exemplo.pandas)
           (L := ExemploPagina.langchain)
           (ExemploPagina.entrada "k" (Some (inr Exemplo.cab_a))
              (Some (inr Exemplo.itens_b)) (Some "qual o total?"%string))
           ExemploPagina.nova (inr Exemplo.cab_a) (inr Exemplo.itens_b)
           Exemplo.cab_a Exemplo.itens_b
           eq_refl eq_refl eq_refl eq_refl eq_refl).
  intros c [<- | []]. vm_compute. intuition discriminate.
Defined.

(** ** X8, X9, X10: the conversation *)

(** X8: in a run that reaches its end with a question typed and an agent in
    the session, the agent is asked exactly once, with the question wrapped
    in the fixed context, and the history gains exactly two messages: the
    question as the user's, then the answer as the assistant's, or the text
    of the error when the agent raises. *)
Theorem X8_pergunta_e_resposta {P : Pandas} {L : LangChain}
    (e : Entrada) (x : Sessao) (ag : Agente) (p : string) :
  agente_de x = Some ag ->
  perguntou e = Some p ->
  fst (executa_script e x) = inr tt ->
  messages (sessao_apos x e)
  = Some (historico x
          ++ [mkMsg "user" p; mkMsg "assistant" (resposta ag p)])
  /\ filter eh_pergunta (feito (snd (executa_script e x)))
     = [Pergunta ag (prompt_completo p)].
Proof.
  intros Hx Hp. unfold sessao_apos, perguntou, agente_de, historico, resposta in *.
  destruct x as [ae ms]. destruct e as [k ca it q]. reduz_script.
  destruct ae as [[ag0 |] |]; try discriminate Hx. injection Hx as ->.
  destruct q as [q |]; [| discriminate Hp].
  destruct (String.eqb q "") eqn:Hq; [discriminate Hp |]. injection Hp as ->.
  abre_script; reduz_script. rewrite Hq.
  repeat passo_script; intros Hfim; try discriminate Hfim;
    try discriminate;
    (split;
     [ rewrite <- ?app_assoc; reflexivity
     | rewrite ?filter_app, ?filter_pergunta_exibida, ?filter_pergunta_carga;
       reflexivity ]).
Qed.

Lemma X8_pergunta_e_resposta_witness :
  messages
    (sessao_apos (P := Exemplo.pandas) (L := ExemploPagina.langchain)
       ExemploPagina.com_agente
       (ExemploPagina.entrada "" None None (Some "qual o total?"%string)))
  = Some [mkMsg "user" "oi"; mkMsg "assistant" "olá";
          mkMsg "user" "qual o total?"; mkMsg "assistant" "100.00"].
Proof.
  destruct (X8_pergunta_e_resposta (P := Exemplo.pandas)
              (L := ExemploPagina.langchain)
              (ExemploPagina.entrada "" None None
                 (Some "qual o total?"%string))
              ExemploPagina.com_agente Exemplo.completo6
              "qual o total?"%string eq_refl eq_refl eq_refl)
    as [Hmsgs _].
  exact Hmsgs.
Defined.

(** X9: in a run that reaches its end with a question typed and no agent in
    the session when the run ends, the agent is never asked: the question is
    stored as the user's message and shown, the warning of line 156 follows,
    and no assistant message is stored. *)
Theorem X9_pergunta_sem_agente {P : Pandas} {L : LangChain}
    (e : Entrada) (x : Sessao) (p : string) :
  perguntou e = Some p ->
  fst (executa_script e x) = inr tt ->
  agente_de (sessao_apos x e) = None ->
  messages (sessao_apos x e) = Some (historico x ++ [mkMsg "user" p])
  /\ filter eh_pergunta (feito (snd (executa_script e x))) = []
  /\ exists antes,
       feito (snd (executa_script e x))
       = antes ++ [Tela (Some "user"%string) (Markdown p);
                   Tela None (Warning msg_aviso)].
Proof.
  intros Hp. unfold sessao_apos, perguntou, agente_de, historico in *.
  destruct x as [ae ms]. destruct e as [k ca it q]. reduz_script.
  destruct q as [q |]; [| discriminate Hp].
  destruct (String.eqb q "") eqn:Hq; [discriminate Hp |]. injection Hp as ->.
  abre_script; reduz_script. rewrite Hq.
  repeat passo_script; intros Hfim Hsem; try discriminate Hfim;
    try discriminate Hsem; try discriminate;
    (split; [reflexivity |]);
    (split;
     [ rewrite ?filter_app, ?filter_pergunta_exibida, ?filter_pergunta_carga;
       reflexivity
     | rewrite <- (app_assoc _ [_] [_]); eexists; reflexivity ]).
Qed.

Lemma X9_pergunta_sem_agente_witness :
  messages
    (sessao_apos (P := Exemplo.pandas) (L := ExemploPagina.langchain)
       ExemploPagina.nova
       (ExemploPagina.entrada "" None None (Some "oi"%string)))
  = Some [mkMsg "user" "oi"].
Proof.
  destruct (X9_pergunta_sem_agente (P := Exemplo.pandas)
              (L := ExemploPagina.langchain)
              (ExemploPagina.entrada "" None None (Some "oi"%string))
              ExemploPagina.nova "oi"%string eq_refl eq_refl eq_refl)
    as [Hmsgs _].
  exact Hmsgs.
Defined.

(** X10: a run with the test of line 103 failing and nothing typed draws the
    stored history, in order, and nothing else, and leaves the session as it
    was up to the two keys being set up. *)
Theorem X10_pagina_parada {P : Pandas} {L : LangChain}
    (e : Entrada) (x : Sessao) :
  portao e = false ->
  perguntou e = None ->
  executa_script e x
  = (inr tt, mkEstado (iniciada x) (map exibida (historico x))).
Proof.
  intros Hp Hq. unfold portao, perguntou, iniciada, agente_de, historico in *.
  destruct x as [ae ms]. destruct e as [k ca it q]. reduz_script.
  abre_script; reduz_script.
  destruct (negb (String.eqb k "")), ca as [a |], it as [b |];
    try discriminate Hp;
    destruct q as [q |];
    try (destruct (String.eqb q "") eqn:Hvazio; [| discriminate Hq]);
    destruct ae as [ag |], ms as [h |]; reduz_script;
    rewrite ?mostra_eq; reflexivity.
Qed.

Lemma X10_pagina_parada_witness :
  ExemploPagina.roda (ExemploPagina.entrada "" None None None)
    ExemploPagina.com_agente
  = (inr tt,
     mkEstado ExemploPagina.com_agente
       [Tela (Some "user"%string) (Markdown "oi");
        Tela (Some "assistant"%string) (Markdown "olá")]).
Proof.
  apply (X10_pagina_parada (P := Exemplo.pandas)
           (L := ExemploPagina.langchain)
           (ExemploPagina.entrada "" None None None)
           ExemploPagina.com_agente eq_refl eq_refl).
Defined.

(** ** X11: the question put to the agent *)

Lemma prefix_append (p q : string) : String.prefix p (String.append p q) = true.
Proof.
  induction p as [| c p IH]; simpl; [now destruct q |].
  destruct (ascii_dec c c) as [_ | Hn]; [exact IH | now elim Hn].
Qed.

Lemma subcadeia_prefixo (s t : string) :
  String.prefix s t = true -> subcadeia s t = true.
Proof. intros H. destruct t; cbn [subcadeia]; now rewrite H. Qed.

Lemma subcadeia_depois (s antes t : string) :
  subcadeia s t = true -> subcadeia s (String.append antes t) = true.
Proof.
  intros H. induction antes as [| c antes IH]; [exact H |].
  cbn [String.append subcadeia]. rewrite IH.
  now destruct (String.prefix s (String c (String.append antes t))).
Qed.

Lemma prompt_completo_contem (p : string) :
  String.prefix prompt_antes (prompt_completo p) = true
  /\ subcadeia p (prompt_completo p) = true
  /\ subcadeia "Responda em português." (prompt_completo p) = true.
Proof.
  unfold prompt_completo. split; [apply prefix_append |]. split.
  - apply subcadeia_depois, subcadeia_prefixo, prefix_append.
  - apply subcadeia_depois, subcadeia_depois. vm_compute. reflexivity.
Qed.

Lemma In_pergunta_exibida {P : Pandas} {L : LangChain} (ag : Agente)
    (q : string) (ms : list Mensagem) :
  ~ In (Pergunta ag q) (map exibida ms).
Proof.
  intros H. apply in_map_iff in H. destruct H as (m & Hm & _).
  discriminate Hm.
Qed.

Lemma In_pergunta_carga {P : Pandas} {L : LangChain} (ag : Agente)
    (q : string) (evs : list Evento) :
  ~ In (Pergunta ag q) (map DaCarga evs).
Proof.
  intros H. apply in_map_iff in H. destruct H as (m & Hm & _).
  discriminate Hm.
Qed.

Ltac acha_pergunta H :=
  repeat rewrite in_app_iff in H; cbn [In] in H;
  repeat match type of H with
         | _ \/ _ => destruct H as [H | H]
         end;
  try contradiction;
  try discriminate H;
  try (now apply In_pergunta_exibida in H);
  try (now apply In_pergunta_carga in H).

(** X11: in every run, whatever is uploaded, typed or stored, the agent is
    put no question but the one typed in that run: anything passed to an
    agent is the fixed context, then the question typed, verbatim, then the
    instruction to answer in Portuguese; and the agent asked is the one the
    session holds. *)
Theorem X11_agente_recebe_a_pergunta {P : Pandas} {L : LangChain}
    (e : Entrada) (x : Sessao) (ag : Agente) (q : string) :
  In (Pergunta ag q) (feito (snd (executa_script e x))) ->
  exists p,
    perguntou e = Some p
    /\ q = String.append prompt_antes (String.append p prompt_depois)
    /\ String.prefix prompt_antes q = true
    /\ subcadeia p q = true
    /\ subcadeia "Responda em português." q = true
    /\ agent_executor (sessao_apos x e) = Some (Some ag).
Proof.
  unfold sessao_apos, perguntou.
  destruct x as [ae ms]. destruct e as [k ca it pr]. reduz_script.
  abre_script; reduz_script.
  repeat passo_script; intros H; acha_pergunta H;
    injection H as <- <-;
    match goal with
    | |- exists p, Some ?p0 = Some p /\ _ =>
        exists p0; destruct (prompt_completo_contem p0) as (H1 & H2 & H3);
        repeat split; assumption
    end.
Qed.

Lemma X11_agente_recebe_a_pergunta_witness :
  exists p,
    Some p = Some "qual o total?"%string
    /\ subcadeia p (prompt_completo "qual o total?") = true.
Proof.
  destruct (X11_agente_recebe_a_pergunta (P := Exemplo.pandas)
              (L := ExemploPagina.langchain)
              (ExemploPagina.entrada "" None None
                 (Some "qual o total?"%string))
              ExemploPagina.com_agente Exemplo.completo6
              (prompt_completo "qual o total?"))
    as (p & Hp & _ & _ & Hsub & _).
  - vm_compute. right. right. right. now left.
  - exists p. split; [exact (eq_sym Hp) | exact Hsub].
Defined.

(** * More on the loading function *)

Section MaisSobreACarga.
Context {P : Pandas}.

Lemma linhas_de_uma (dir : DataFrame) (i j : nat) (l : list Cell) :
  List.length (filter (pd.casa i j l) (rows dir)) <= 1 ->
  exists x, pd.linhas_de dir i j l = [l ++ x].
Proof.
  unfold pd.linhas_de.
  destruct (filter (pd.casa i j l) (rows dir)) as [| m [| m2 ms]]; simpl.
  - eauto.
  - eauto.
  - lia.
Qed.

Lemma firstn_length_app {A : Type} (l x : list A) :
  firstn (List.length l) (l ++ x) = l.
Proof. induction l as [| a l IH]; simpl; [now destruct x | now rewrite IH]. Qed.

Lemma firstn_flat_map_uma {A : Type} (f : list A -> list (list A))
    (ls : list (list A)) (n : nat) :
  (forall l, In l ls -> List.length l = n /\ exists x, f l = [l ++ x]) ->
  map (firstn n) (flat_map f ls) = ls.
Proof.
  induction ls as [| l r IH]; simpl; [reflexivity |].
  intros H. destruct (H l (or_introl eq_refl)) as (Hn & x & Hx).
  rewrite Hx. simpl. rewrite <- Hn at 1. rewrite firstn_length_app.
  f_equal. apply IH. intros l' Hl'. apply H. now right.
Qed.

Lemma converte_data_linhas (c : string) (df df' : DataFrame) :
  converte_data c df = inr df' ->
  List.length (rows df') = List.length (rows df).
Proof.
  unfold converte_data. destruct (pertence c (columns df)); [| now intros [= <-]].
  unfold coluna, pd.to_datetime.
  destruct (indice c (columns df)) as [i |] eqn:Hi; [| discriminate].
  destruct (pd.converte_todas _ _) as [e | s'] eqn:Hconv; [discriminate |].
  intros [= <-]. apply converte_todas_inr in Hconv. destruct Hconv as [Hlen _].
  rewrite length_map in Hlen. unfold atribui. rewrite Hi. simpl.
  rewrite length_map, length_combine. lia.
Qed.

End MaisSobreACarga.

(** ** X12: the shape of the merged frame *)

(** X12: the frame a successful call returns is rectangular; it has the
    columns of the items frame followed by those of the header but the key;
    and the key keeps its label, at the place it has in the items frame. *)
Theorem X12_resultado_retangular {P : Pandas} (a b : Fonte) (w : list Evento)
    (cab itens df : DataFrame) (k : string) :
  pd.read_csv a sep_campos sep_decimal = inr cab ->
  pd.read_csv b sep_campos sep_decimal = inr itens ->
  fst (carregar_e_preparar_dados a b w) = inr (RetTupla (Some df) (Some k)) ->
  retangular df = true
  /\ List.length (columns df)
     = List.length (columns itens) + (List.length (columns cab) - 1)
  /\ exists i, indice k (columns itens) = Some i
               /\ nth_error (columns df) i = Some k.
Proof.
  intros Ha Hb Hok.
  destruct (sucesso_forma _ _ _ _ _ _ _ Ha Hb Hok)
    as (cab' & i & j & Hn & Hcols & Hi & Hj & Hc & Hr & _).
  pose proof (read_csv_retangular _ _ _ _ Ha) as Hreta.
  pose proof (read_csv_retangular _ _ _ _ Hb) as Hretb.
  destruct (normaliza_inr _ _ Hn Hreta) as (_ & Hret' & _).
  destruct (indice_Some _ _ _ Hj) as [Hjlt _].
  destruct (indice_Some _ _ _ Hi) as [Hilt Hinth].
  assert (Hlen : List.length (columns df)
                 = List.length (columns itens)
                   + (List.length (columns cab) - 1)).
  { rewrite Hc, length_app. unfold pd.rotulos_esq, pd.rotulos_dir.
    rewrite !length_map, length_remove_pos by assumption. reflexivity. }
  split; [| split; [exact Hlen |]].
  - unfold retangular. apply forallb_forall. intros linha Hlinha.
    apply Nat.eqb_eq. rewrite Hlen. rewrite Hr in Hlinha.
    apply in_flat_map in Hlinha. destruct Hlinha as (l & Hl & Hlinha).
    pose proof (retangular_linha itens l Hretb Hl) as Hll.
    apply linhas_de_forma in Hlinha.
    destruct Hlinha as [-> | (r & Hrin & _ & ->)]; rewrite length_app.
    + rewrite repeat_length, Hcols. lia.
    + pose proof (retangular_linha cab' r Hret' Hrin) as Hlr.
      rewrite Hcols in Hlr. rewrite length_remove_pos by lia. lia.
  - exists i. split; [assumption |]. rewrite Hc.
    rewrite nth_error_app1
      by (unfold pd.rotulos_esq; now rewrite length_map).
    unfold pd.rotulos_esq. rewrite nth_error_map, Hinth. simpl.
    now rewrite String.eqb_refl.
Qed.

Lemma X12_resultado_retangular_witness :
  retangular Exemplo.completo6 = true
  /\ List.length (columns Exemplo.completo6) = 3 + (3 - 1).
Proof.
  destruct (X12_resultado_retangular (P := Exemplo.pandas)
              (inr Exemplo.cab6) (inr Exemplo.itens6) []
              Exemplo.cab6 Exemplo.itens6 Exemplo.completo6 "NÚMERO"%string
              eq_refl eq_refl eq_refl) as (Hret & Hlen & _).
  split; [exact Hret | exact Hlen].
Defined.

(** ** X13, X14: the rows come from the items *)

(** X13: every row of the frame a successful call returns starts with a row
    of the items frame, whole and unchanged: the join adds no row of its
    own, and a header row that no item refers to leaves no trace. *)
Theorem X13_linhas_vem_dos_itens {P : Pandas} (a b : Fonte) (w : list Evento)
    (cab itens df : DataFrame) (k : string) (linha : list Cell) :
  pd.read_csv a sep_campos sep_decimal = inr cab ->
  pd.read_csv b sep_campos sep_decimal = inr itens ->
  fst (carregar_e_preparar_dados a b w) = inr (RetTupla (Some df) (Some k)) ->
  In linha (rows df) ->
  In (firstn (List.length (columns itens)) linha) (rows itens).
Proof.
  intros Ha Hb Hok Hlinha.
  destruct (sucesso_forma _ _ _ _ _ _ _ Ha Hb Hok)
    as (cab' & i & j & _ & _ & _ & _ & _ & Hr & _).
  pose proof (read_csv_retangular _ _ _ _ Hb) as Hretb.
  rewrite Hr in Hlinha. apply in_flat_map in Hlinha.
  destruct Hlinha as (l & Hl & Hlinha).
  rewrite <- (retangular_linha itens l Hretb Hl).
  apply linhas_de_forma in Hlinha.
  destruct Hlinha as [-> | (r & _ & _ & ->)];
    now rewrite firstn_length_app.
Qed.

Lemma X13_linhas_vem_dos_itens_witness :
  In (firstn (List.length (columns Exemplo.itens6))
        [Txt "1"; Txt "Widget"; Txt "2"; Txt "ACME"; Txt "100.00"])
     (rows Exemplo.itens6).
Proof.
  apply (X13_linhas_vem_dos_itens (P := Exemplo.pandas)
           (inr Exemplo.cab6) (inr Exemplo.itens6) []
           Exemplo.cab6 Exemplo.itens6 Exemplo.completo6 "NÚMERO"%string
           _ eq_refl eq_refl eq_refl).
  now left.
Defined.

(** X14: when no item row has its key value in more than one header row,
    the item rows are found in the returned frame in their order and
    unchanged: cutting every returned row to the width of the items frame
    gives back the rows of the items frame. *)
Theorem X14_ordem_dos_itens {P : Pandas} (a b : Fonte) (w : list Evento)
    (cab itens df : DataFrame) (k : string) :
  pd.read_csv a sep_campos sep_decimal = inr cab ->
  pd.read_csv b sep_campos sep_decimal = inr itens ->
  fst (carregar_e_preparar_dados a b w) = inr (RetTupla (Some df) (Some k)) ->
  (forall l, In l (rows itens) -> List.length (casam cab itens k l) <= 1) ->
  map (firstn (List.length (columns itens))) (rows df) = rows itens.
Proof.
  intros Ha Hb Hok Huma.
  destruct (sucesso_forma _ _ _ _ _ _ _ Ha Hb Hok)
    as (cab' & i & j & _ & _ & _ & _ & _ & Hr & Hf & Hlen).
  pose proof (read_csv_retangular _ _ _ _ Hb) as Hretb.
  rewrite Hr. unfold pd.left_join. apply firstn_flat_map_uma.
  intros l Hl. split; [now apply retangular_linha |].
  apply linhas_de_uma. rewrite Hf, Hlen. now apply Huma.
Qed.

Lemma X14_ordem_dos_itens_witness :
  map (firstn (List.length (columns Exemplo.itens6))) (rows Exemplo.completo6)
  = rows Exemplo.itens6.
Proof.
  apply (X14_ordem_dos_itens (P := Exemplo.pandas)
           (inr Exemplo.cab6) (inr Exemplo.itens6) []
           Exemplo.cab6 Exemplo.itens6 Exemplo.completo6 "NÚMERO"%string
           eq_refl eq_refl eq_refl).
  intros l [<- | [<- | []]]; vm_compute; lia.
Defined.

(** ** X15: a header that does not parse *)

(** X15: when the header upload does not parse, the items upload is not
    read at all; the call shows one message, which ends with the text of the
    parser's exception, and returns [(None, None)]. *)
Theorem X15_cabecalho_ilegivel_nao_le_itens {P : Pandas} (a b : Fonte)
    (w : list Evento) (e : Excecao) :
  pd.read_csv a sep_campos sep_decimal = inl e ->
  carregar_e_preparar_dados a b w
  = (inr (RetTupla None None),
     w ++ [leu a;
           StError (String.append
                      "Ocorreu um erro ao carregar ou processar os arquivos: "
                      e)]).
Proof. intros Ha. now rewrite carregar_casos, Ha. Qed.

Lemma X15_cabecalho_ilegivel_nao_le_itens_witness :
  Exemplo.executa (inl "No columns to parse from file"%string)
                  (inr Exemplo.itens6)
  = (inr (RetTupla None None),
     [leu (P := Exemplo.pandas) (inl "No columns to parse from file"%string);
      StError "Ocorreu um erro ao carregar ou processar os arquivos: No columns to parse from file"]).
Proof.
  apply (X15_cabecalho_ilegivel_nao_le_itens (P := Exemplo.pandas)
           (inl "No columns to parse from file"%string)
           (inr Exemplo.itens6) [] "No columns to parse from file"%string).
  reflexivity.
Defined.

(** ** X1: what the date conversion leaves alone *)

(** X1: when lines 37-40 go through on a rectangular header, the header
    keeps its labels and its number of rows, and every column other than
    the two date columns keeps its values. *)
Theorem X1_normaliza_so_muda_datas {P : Pandas} (cab cab' : DataFrame) :
  normaliza cab = inr cab' ->
  retangular cab = true ->
  columns cab' = columns cab
  /\ List.length (rows cab') = List.length (rows cab)
  /\ forall c, ~ In c colunas_de_data -> coluna cab' c = coluna cab c.
Proof.
  intros Hn Hret.
  destruct (normaliza_inr _ _ Hn Hret) as (Hcols & _ & Houtras & _).
  split; [assumption |]. split.
  - unfold normaliza in Hn.
    destruct (converte_data "DataEmissao" cab) as [e | df1] eqn:H1;
      [discriminate |].
    rewrite (converte_data_linhas _ _ _ Hn).
    now apply (converte_data_linhas "DataEmissao"%string).
  - intros c Hc. unfold coluna. rewrite Hcols.
    destruct (indice c (columns cab)) as [j |] eqn:Hj; [| reflexivity].
    f_equal. now apply (Houtras c j).
Qed.

Lemma X1_normaliza_so_muda_datas_witness :
  exists cab',
    normaliza (P := Exemplo.pandas) Exemplo.cab_data_boa = inr cab'
    /\ coluna cab' "NÚMERO" = coluna Exemplo.cab_data_boa "NÚMERO"
    /\ coluna cab' "DataEmissao" = Some [Data 1705276800000000000].
Proof.
  exists (mkDF ["NÚMERO"%string; "DataEmissao"%string]
               [[Txt "1"; Data 1705276800000000000]]).
  split; [reflexivity |]. split; [| reflexivity].
  destruct (X1_normaliza_so_muda_datas (P := Exemplo.pandas)
              Exemplo.cab_data_boa
              (mkDF ["NÚMERO"%string; "DataEmissao"%string]
                    [[Txt "1"; Data 1705276800000000000]])
              eq_refl eq_refl) as (_ & _ & Houtras).
  apply Houtras. simpl. intros [H | [H | []]]; discriminate H.
Defined.


(** ** X17: a load that fails on an exception *)

(** X17: when the key and both uploads are given and the loading function
    returns [(None, None)], the run does not stop: no agent is built and
    nothing is announced, the session keeps the agent it had, and after the
    loading function's own output the run goes on with the conversation. *)
Theorem X17_erro_de_carga_nao_interrompe {P : Pandas} {L : LangChain}
    (e : Entrada) (x : Sessao) (a b : Fonte) (evs : list Evento) :
  String.eqb (gemini_api_key e) "" = false ->
  uploaded_cabecalho e = Some a ->
  uploaded_itens e = Some b ->
  carregar_e_preparar_dados a b [] = (inr (RetTupla None None), evs) ->
  fst (executa_script e x) = inr tt
  /\ agente_de (sessao_apos x e) = agente_de x
  /\ exists resto,
       feito (snd (executa_script e x)) = map DaCarga evs ++ resto
       /\ forallb da_conversa resto = true.
Proof.
  intros Hk Ha Hb Hcarga. unfold sessao_apos.
  destruct x as [ae ms]. destruct e as [k ca it p]. reduz_script.
  subst ca it. abre_script; reduz_script.
  rewrite Hk, linha_106_eq, Hcarga. cbn [negb desempacota]. reduz_script.
  repeat passo_script; unfold agente_de; reduz_script;
    (split; [reflexivity |]); (split; [reflexivity |]);
    arruma_feito; eexists; (split; [reflexivity |]);
    rewrite ?forallb_app, ?forallb_exibida; reflexivity.
Qed.

Lemma X17_erro_de_carga_nao_interrompe_witness :
  fst (ExemploPagina.roda
         (ExemploPagina.entrada "k" (Some (inr Exemplo.cab_data_ruim))
            (Some (inr Exemplo.itens6)) (Some "qual o total?"%string))
         ExemploPagina.com_agente) = inr tt.
Proof.
  destruct (X17_erro_de_carga_nao_interrompe (P := Exemplo.pandas)
              (L := ExemploPagina.langchain)
              (ExemploPagina.entrada "k" (Some (inr Exemplo.cab_data_ruim))
                 (Some (inr Exemplo.itens6)) (Some "qual o total?"%string))
              ExemploPagina.com_agente
              (inr Exemplo.cab_data_ruim) (inr Exemplo.itens6)
              (snd (Exemplo.executa (inr Exemplo.cab_data_ruim)
                                    (inr Exemplo.itens6)))
              eq_refl eq_refl eq_refl eq_refl) as (Hfim & _).
  exact Hfim.
Defined.
